(** * audioFlux: the ST, FST and PWT bindings

    A shallow embedding of [audioflux/st.py], [audioflux/fst.py] and
    [audioflux/pwt.py].  The three classes are thin Python adapters over a
    native library: they validate their arguments, remember them, allocate
    numpy buffers and hand those to the native routines.

    Conventions of the embedding:
    - Python [int] is [Z]; a float is a rational [Q].  The float32
      arithmetic of [ST.get_fre_band_arr] and [FST.get_fre_band_arr] is
      rounded to the nearest binary32 value, ties to even, subnormals
      included, by [f32].  Every other float is taken as exact: Python's
      binary64 values, and the float32 conversions of the ctypes arguments
      and of [low_fre] in [PWT.y_coords].  Infinities and NaN are not
      modelled: statements about float32 values stay within the finite
      range;
    - a raised exception is a value [Err e]; every method runs in the monad
      [py], which threads the log of calls made into the native library;
    - a keyword parameter is an [option]: [None] stands for an argument the
      caller left out, and [kw] binds it to the default of the signature;
    - what the native routines write into a buffer is not known here: it is
      given by a [native_lib], over which every statement is universal. *)

From Stdlib Require Import ZArith QArith Qround Qabs Qpower List Bool Lia.
Import ListNotations.

Open Scope Z_scope.

(** ** Exceptions *)

Inductive message : Type :=
| NegativeShiftCount
| MinIndexNotPositive (min_index : Z)
| MaxIndexTooLarge (max_index : Z)
| MinIndexNotBelowMax (min_index max_index : Z)
| BinPerOctaveNotPositive (bin_per_octave : Z)
| LowFreBelowC1 (low_fre : Q)
| LowFreNegative (low_fre : Q)
| NegativeDimensions
| NegativeArrayLength
| NegativeSamples
| AudioLength (length : nat) (fft_length : Z).

(** [AudioError] stands for whatever [check_audio] raises. *)
Inductive exn : Type :=
| ValueError (msg : message)
| ZeroDivisionError
| IndexError
| AudioError (code : nat).

Inductive result (A : Type) : Type :=
| Ok (a : A)
| Err (e : exn).

Arguments Ok {A} a.
Arguments Err {A} e.

(** ** The native library, seen from Python *)

(** [audioflux.type] is not part of the sources.
    Modelled from the spec: the scale types are the seven scales the
    Frequency Band Generator lists. *)
Inductive SpectralFilterBankScaleType : Type :=
| LINEAR | LINSPACE | MEL | BARK | ERB | OCTAVE | LOG.

Definition scale_eqb (a b : SpectralFilterBankScaleType) : bool :=
  match a, b with
  | LINEAR, LINEAR | LINSPACE, LINSPACE | MEL, MEL | BARK, BARK
  | ERB, ERB | OCTAVE, OCTAVE | LOG, LOG => true
  | _, _ => false
  end.

(** Style and normal types only travel to the native constructor; they are
    kept as the integer [.value] of the enumeration member. *)
Definition SpectralFilterBankStyleType := Z.
Definition SpectralFilterBankNormalType := Z.
Definition SLANEY : SpectralFilterBankStyleType := 0.
Definition NONE : SpectralFilterBankNormalType := 0.

(** One entry of the log per call into [self._lib]. *)
Inductive native_call : Type :=
| stObj_new (radix2_exp min_index max_index : Z) (factor norm : Q)
| stObj_st (data : list Q)
| fstObj_new (radix2_exp : Z)
| fstObj_fst (data : list Q) (min_index max_index : Z)
| pwtObj_new (num radix2_exp samplate : Z) (low_fre high_fre : Q)
    (bin_per_octave : Z) (scale_type : SpectralFilterBankScaleType)
    (style_type normal_type : Z) (is_padding : Z)
| pwtObj_getFreBandArr
| pwtObj_pwt (data : list Q).

Definition world := list native_call.

(** What the native side produces, as a function of the calls made so far
    (the current one first): the complex value stored at a flat offset of
    the two output buffers, and the float found at an offset of the band
    array a PWT object owns. *)
Record native_lib : Type := {
  spectrum : world -> nat -> Q * Q;
  fre_band : world -> nat -> Q
}.

(** ** The monad of a Python method *)

Definition py (A : Type) : Type := world -> result A * world.

Definition ret {A} (a : A) : py A := fun w => (Ok a, w).
Definition raise {A} (e : exn) : py A := fun w => (Err e, w).
Definition bind {A B} (m : py A) (k : A -> py B) : py B :=
  fun w => match m w with
           | (Ok a, w') => k a w'
           | (Err e, w') => (Err e, w')
           end.
Definition lift {A} (r : result A) : py A := fun w => (r, w).
Definition call (c : native_call) : py world := fun w => (Ok (c :: w), c :: w).

Declare Scope py_scope.
Delimit Scope py_scope with py.
Notation "x <- m ;; k" := (bind m (fun x => k))
  (at level 61, m at next level, right associativity) : py_scope.
Notation "m ;;; k" := (bind m (fun _ => k))
  (at level 61, right associativity) : py_scope.

(** ** Python and numpy primitives *)

(** A keyword parameter bound to its default when the caller omits it. *)
Definition kw {A} (default : A) (arg : option A) : A :=
  match arg with Some v => v | None => default end.

(** [1 << n]: negative shift counts raise [ValueError]. *)
Definition lshift1 (n : Z) : result Z :=
  if n <? 0 then Err (ValueError NegativeShiftCount) else Ok (Z.shiftl 1 n).

(** [a / b] on two Python ints. *)
Definition truediv (a b : Z) : result Q :=
  if b =? 0 then Err ZeroDivisionError else Ok (inject_Z a / inject_Z b)%Q.

Definition Qltb (x y : Q) : bool := negb (Qle_bool y x).
Definition Qgeb (x y : Q) : bool := Qle_bool y x.

(** [ctypes.c_int(v)]: the value is reduced to 32 bits, two's complement. *)
Definition c_int (v : Z) : Z := (v + 2 ^ 31) mod 2 ^ 32 - 2 ^ 31.

(** [round(x, 3)]: to the nearest thousandth, ties to even. *)
Definition round3 (x : Q) : Q :=
  let y := (x * inject_Z 1000)%Q in
  let f := Qfloor y in
  let r := (y - inject_Z f)%Q in
  let n := if Qltb r (1 # 2) then f
           else if Qltb (1 # 2) r then f + 1
           else if Z.even f then f else f + 1 in
  (inject_Z n / inject_Z 1000)%Q.

(** [np.arange(start, stop)] in binary64, as [np.linspace] uses it. *)
Definition np_arange (start stop : Z) : list Q :=
  map (fun i => inject_Z (start + Z.of_nat i)) (seq 0 (Z.to_nat (stop - start))).

(** *** float32 *)

(** [floor (log2 |x|)], for [x] other than zero. *)
Definition ilog2 (x : Q) : Z :=
  let e := Z.log2 (Z.abs (Qnum x)) - Z.log2 (Zpos (Qden x)) in
  if Qle_bool (2 ^ e) (Qabs x) then e else e - 1.

(** The nearest integer, ties to even. *)
Definition round_half_even (q : Q) : Z :=
  let f := Qfloor q in
  let r := (q - inject_Z f)%Q in
  if Qltb r (1 # 2) then f
  else if Qltb (1 # 2) r then f + 1
  else if Z.even f then f else f + 1.

(** The spacing of binary32 values around [x]: 24 significant bits, and
    [2^-149] below the smallest normal number [2^-126]. *)
Definition ulp32 (x : Q) : Q := (2 ^ (Z.max (ilog2 x) (-126) - 23))%Q.

(** The binary32 value nearest to [x], ties to even: what a float32
    operation stores when its exact result is [x]. *)
Definition f32 (x : Q) : Q :=
  (inject_Z (round_half_even (x / ulp32 x)) * ulp32 x)%Q.

(** Entry [k] of [np.arange(start, stop, dtype=np.float32)].  numpy stores
    [start] and [start + 1] and fills the rest in float32 as
    [first + k * delta], [delta] being the difference of the two. *)
Definition arange_f32_at (start k : Z) : Q :=
  let first := f32 (inject_Z start) in
  let second := f32 (inject_Z (start + 1)) in
  let delta := f32 (second - first) in
  if k =? 0 then first
  else if k =? 1 then second
  else f32 (first + f32 (f32 (inject_Z k) * delta)).

(** [np.arange(start, stop, dtype=np.float32)]. *)
Definition np_arange_f32 (start stop : Z) : list Q :=
  map (fun i => arange_f32_at start (Z.of_nat i))
      (seq 0 (Z.to_nat (stop - start))).

(** [arr * k] and [arr / k] on a float32 array with a Python int [k],
    element by element: [k] becomes a float32 and so does each result. *)
Definition np_mul (arr : list Q) (k : Z) : list Q :=
  map (fun v => f32 (v * f32 (inject_Z k))) arr.
Definition np_div (arr : list Q) (k : Z) : list Q :=
  map (fun v => f32 (v / f32 (inject_Z k))) arr.

(** [arr[0]]. *)
Definition getitem0 (arr : list Q) : result Q :=
  match arr with
  | [] => Err IndexError
  | v :: _ => Ok v
  end.

(** [np.insert(arr, 0, v)] on a one-dimensional array. *)
Definition np_insert0 (arr : list Q) (v : Q) : list Q := v :: arr.

(** [arr[-1] = v]. *)
Definition set_last (arr : list Q) (v : Q) : list Q :=
  match arr with
  | [] => []
  | _ => removelast arr ++ [v]
  end.

(** [np.linspace(start, stop, num)], endpoint included. *)
Definition np_linspace (start stop : Q) (num : Z) : result (list Q) :=
  if num <? 0 then Err (ValueError NegativeSamples)
  else
    let div := num - 1 in
    let delta := (stop - start)%Q in
    let y := np_arange 0 num in
    let y := if 0 <? div
             then map (fun v => (v * (delta / inject_Z div))%Q) y
             else map (fun v => (v * delta)%Q) y in
    let y := map (fun v => (v + start)%Q) y in
    Ok (if 1 <? num then set_last y stop else y).

(** A two-dimensional array: its shape and its buffer, row after row. *)
Record ndarray2 (A : Type) : Type := {
  shape : Z * Z;
  flat : list A
}.

Arguments shape {A} n.
Arguments flat {A} n.

(** [np.zeros((rows, cols), dtype=np.float32)]. *)
Definition np_zeros (rows cols : Z) : result (ndarray2 Q) :=
  if (rows <? 0) || (cols <? 0) then Err (ValueError NegativeDimensions)
  else Ok {| shape := (rows, cols);
             flat := repeat 0%Q (Z.to_nat (rows * cols)) |}.

(** A native routine writes through the data pointer of an array: the
    buffer changes cell by cell, the shape does not. *)
Definition fill {A B} (out : nat -> B) (arr : ndarray2 A) : ndarray2 B :=
  {| shape := shape arr;
     flat := map out (seq 0 (length (flat arr))) |}.

(** [re + (im * 1j)] on two arrays of one shape. *)
Definition np_complex (re im : ndarray2 Q) : ndarray2 (Q * Q) :=
  {| shape := shape re; flat := combine (flat re) (flat im) |}.

Definition real_plane (m : ndarray2 (Q * Q)) : ndarray2 Q :=
  {| shape := shape m; flat := map fst (flat m) |}.
Definition imag_plane (m : ndarray2 (Q * Q)) : ndarray2 Q :=
  {| shape := shape m; flat := map snd (flat m) |}.

(** ** audioflux.utils *)

(** Modelled from the spec: [audioflux.utils.check_audio_length] is not part
    of the sources.  Section 4.4 step 1 asks that the signal length equal
    [fft_length] exactly, with no padding and no truncation: any other
    length raises, and an accepted signal is returned as it came. *)
Definition check_audio_length (data_arr : list Q) (radix2_exp : Z)
  : result (list Q) :=
  match lshift1 radix2_exp with
  | Err e => Err e
  | Ok fft_length =>
      if Z.of_nat (length data_arr) =? fft_length then Ok data_arr
      else Err (ValueError (AudioLength (length data_arr) fft_length))
  end.

(** Modelled from the spec: [audioflux.utils.note_to_hz] is not part of the
    sources; the source annotates [note_to_hz('C1')] with [32.703], the
    pitch C1 of equal temperament, 440 * 2^(-45/12) = 32.7031956626 Hz. *)
Definition note_to_hz_C1 : Q := 327031956626 # 10000000000.

(** ** audioflux/st.py *)

Module ST.

(** The attributes [__init__] stores on [self]. *)
Record t : Type := {
  radix2_exp : Z;
  samplate : Z;
  min_index : Z;
  max_index : Z;
  factor : Q;
  norm : Q;
  fft_length : Z;
  num : Z
}.

(** The arguments of [ST(...)]; [max_index] is [None] in the signature. *)
Record args : Type := {
  arg_radix2_exp : option Z;
  arg_min_index : option Z;
  arg_max_index : option Z;
  arg_samplate : option Z;
  arg_factor : option Q;
  arg_norm : option Q
}.

Definition __init__ (a : args) : py t :=
  (let radix2_exp := kw 12 (arg_radix2_exp a) in
   let min_index := kw 1 (arg_min_index a) in
   let samplate := kw 32000 (arg_samplate a) in
   let factor := kw 1%Q (arg_factor a) in
   let norm := kw 1%Q (arg_norm a) in
   fft_length <- lift (lshift1 radix2_exp) ;;
   let max_index :=
     match arg_max_index a with
     | None => fft_length / 2 - 1
     | Some m => m
     end in
   if min_index <? 1
   then raise (ValueError (MinIndexNotPositive min_index))
   else if Qgeb (inject_Z max_index) (inject_Z fft_length / inject_Z 2)
   then raise (ValueError (MaxIndexTooLarge max_index))
   else if min_index >=? max_index
   then raise (ValueError (MinIndexNotBelowMax min_index max_index))
   else
     call (stObj_new (c_int radix2_exp) (c_int min_index) (c_int max_index)
             factor norm) ;;;
     ret {| radix2_exp := radix2_exp;
            samplate := samplate;
            min_index := min_index;
            max_index := max_index;
            factor := factor;
            norm := norm;
            fft_length := fft_length;
            num := max_index - min_index + 1 |})%py.

Definition get_fre_band_arr (self : t) : list Q :=
  np_div (np_mul (np_arange_f32 (min_index self) (max_index self + 1))
            (samplate self))
    (fft_length self).

Definition y_coords (self : t) : result (list Q) :=
  let fre_band_arr := get_fre_band_arr self in
  match getitem0 fre_band_arr with
  | Err e => Err e
  | Ok first => Ok (np_insert0 fre_band_arr first)
  end.

Definition x_coords (self : t) : result (list Q) :=
  match truediv (fft_length self) (samplate self) with
  | Err e => Err e
  | Ok stop => np_linspace 0 stop (fft_length self + 1)
  end.

Section Bindings.

(** [audioflux.utils.check_audio] is not part of the sources: any
    validator that accepts or raises. *)
Variable check_audio : list Q -> result unit.
Variable lib : native_lib.

Definition st (self : t) (data_arr : list Q) : py (ndarray2 (Q * Q)) :=
  (lift (check_audio data_arr) ;;;
   data_arr <- lift (check_audio_length data_arr (radix2_exp self)) ;;
   m_real_arr <- lift (np_zeros (num self) (fft_length self)) ;;
   m_imag_arr <- lift (np_zeros (num self) (fft_length self)) ;;
   w <- call (stObj_st data_arr) ;;
   let m_real_arr := fill (fun k => fst (spectrum lib w k)) m_real_arr in
   let m_imag_arr := fill (fun k => snd (spectrum lib w k)) m_imag_arr in
   ret (np_complex m_real_arr m_imag_arr))%py.

End Bindings.

End ST.

(** ** audioflux/fst.py *)

Module FST.

Record t : Type := {
  radix2_exp : Z;
  min_index : Z;
  max_index : Z;
  samplate : Z;
  fft_length : Z;
  num : Z
}.

Record args : Type := {
  arg_radix2_exp : option Z;
  arg_min_index : option Z;
  arg_max_index : option Z;
  arg_samplate : option Z
}.

Definition __init__ (a : args) : py t :=
  (let radix2_exp := kw 12 (arg_radix2_exp a) in
   let min_index := kw 1 (arg_min_index a) in
   let samplate := kw 32000 (arg_samplate a) in
   fft_length <- lift (lshift1 radix2_exp) ;;
   let max_index :=
     match arg_max_index a with
     | None => fft_length / 2 - 1
     | Some m => m
     end in
   if min_index <? 1
   then raise (ValueError (MinIndexNotPositive min_index))
   else if Qgeb (inject_Z max_index) (inject_Z fft_length / inject_Z 2)
   then raise (ValueError (MaxIndexTooLarge max_index))
   else if min_index >=? max_index
   then raise (ValueError (MinIndexNotBelowMax min_index max_index))
   else
     call (fstObj_new (c_int radix2_exp)) ;;;
     ret {| radix2_exp := radix2_exp;
            min_index := min_index;
            max_index := max_index;
            samplate := samplate;
            fft_length := fft_length;
            num := max_index - min_index + 1 |})%py.

Definition get_fre_band_arr (self : t) : list Q :=
  np_div (np_mul (np_arange_f32 (min_index self) (max_index self + 1))
            (samplate self))
    (fft_length self).

Definition y_coords (self : t) : result (list Q) :=
  let fre_band_arr := get_fre_band_arr self in
  match getitem0 fre_band_arr with
  | Err e => Err e
  | Ok first => Ok (np_insert0 fre_band_arr first)
  end.

Definition x_coords (self : t) : result (list Q) :=
  match truediv (fft_length self) (samplate self) with
  | Err e => Err e
  | Ok stop => np_linspace 0 stop (fft_length self + 1)
  end.

Section Bindings.

Variable check_audio : list Q -> result unit.
Variable lib : native_lib.

Definition fst (self : t) (data_arr : list Q) : py (ndarray2 (Q * Q)) :=
  (lift (check_audio data_arr) ;;;
   data_arr <- lift (check_audio_length data_arr (radix2_exp self)) ;;
   m_real_arr <- lift (np_zeros (num self) (fft_length self)) ;;
   m_imag_arr <- lift (np_zeros (num self) (fft_length self)) ;;
   w <- call (fstObj_fst data_arr (c_int (min_index self))
                (c_int (max_index self))) ;;
   let m_real_arr :=
     fill (fun k => Datatypes.fst (spectrum lib w k)) m_real_arr in
   let m_imag_arr :=
     fill (fun k => Datatypes.snd (spectrum lib w k)) m_imag_arr in
   ret (np_complex m_real_arr m_imag_arr))%py.

End Bindings.

End FST.

(** ** audioflux/pwt.py *)

Module PWT.

Record t : Type := {
  num : Z;
  radix2_exp : Z;
  samplate : Z;
  low_fre : Q;
  high_fre : Q;
  bin_per_octave : Z;
  scale_type : SpectralFilterBankScaleType;
  style_type : SpectralFilterBankStyleType;
  normal_type : SpectralFilterBankNormalType;
  is_padding : bool;
  fft_length : Z
}.

(** The arguments of [PWT(...)].  [low_fre] and [high_fre] accept a float
    or Python's [None], so a supplied value is itself an [option]. *)
Record args : Type := {
  arg_num : Z;
  arg_radix2_exp : option Z;
  arg_samplate : option Z;
  arg_low_fre : option (option Q);
  arg_high_fre : option (option Q);
  arg_bin_per_octave : option Z;
  arg_scale_type : option SpectralFilterBankScaleType;
  arg_style_type : option SpectralFilterBankStyleType;
  arg_normal_type : option SpectralFilterBankNormalType;
  arg_is_padding : option bool
}.

(** [scale_type in (OCTAVE, LOG)]. *)
Definition octave_or_log (s : SpectralFilterBankScaleType) : bool :=
  scale_eqb s OCTAVE || scale_eqb s LOG.

Definition __init__ (a : args) : py t :=
  (let num := arg_num a in
   let radix2_exp := kw 12 (arg_radix2_exp a) in
   let samplate := kw 32000 (arg_samplate a) in
   let low_fre := kw (Some 0%Q) (arg_low_fre a) in
   let high_fre := kw (Some (inject_Z 16000)) (arg_high_fre a) in
   let bin_per_octave := kw 12 (arg_bin_per_octave a) in
   let scale_type := kw OCTAVE (arg_scale_type a) in
   let style_type := kw SLANEY (arg_style_type a) in
   let normal_type := kw NONE (arg_normal_type a) in
   let is_padding := kw true (arg_is_padding a) in
   if scale_eqb scale_type OCTAVE && (bin_per_octave <? 1)
   then raise (ValueError (BinPerOctaveNotPositive bin_per_octave))
   else
     let low_fre :=
       match low_fre with
       | None => if octave_or_log scale_type then note_to_hz_C1 else 0%Q
       | Some v => v
       end in
     let high_fre :=
       match high_fre with
       | None => (inject_Z samplate / inject_Z 2)%Q
       | Some v => v
       end in
     if octave_or_log scale_type && Qltb low_fre (round3 note_to_hz_C1)
     then raise (ValueError (LowFreBelowC1 low_fre))
     else if Qltb low_fre 0
     then raise (ValueError (LowFreNegative low_fre))
     else
       fft_length <- lift (lshift1 radix2_exp) ;;
       call (pwtObj_new (c_int num) (c_int radix2_exp) (c_int samplate)
               low_fre high_fre (c_int bin_per_octave) scale_type
               (c_int style_type) (c_int normal_type)
               (c_int (Z.b2z is_padding))) ;;;
       ret {| num := num;
              radix2_exp := radix2_exp;
              samplate := samplate;
              low_fre := low_fre;
              high_fre := high_fre;
              bin_per_octave := bin_per_octave;
              scale_type := scale_type;
              style_type := style_type;
              normal_type := normal_type;
              is_padding := is_padding;
              fft_length := fft_length |})%py.

Definition x_coords (self : t) : result (list Q) :=
  match truediv (fft_length self) (samplate self) with
  | Err e => Err e
  | Ok stop => np_linspace 0 stop (fft_length self + 1)
  end.

Section Bindings.

Variable check_audio : list Q -> result unit.
Variable lib : native_lib.

(** [(c_float * self.num).from_address(p)], copied out: [num] floats
    read from the address the native call returned. *)
Definition get_fre_band_arr (self : t) : py (list Q) :=
  (w <- call pwtObj_getFreBandArr ;;
   if num self <? 0 then raise (ValueError NegativeArrayLength)
   else ret (map (fre_band lib w) (seq 0 (Z.to_nat (num self)))))%py.

Definition pwt (self : t) (data_arr : list Q) : py (ndarray2 (Q * Q)) :=
  (lift (check_audio data_arr) ;;;
   data_arr <- lift (check_audio_length data_arr (radix2_exp self)) ;;
   real_arr <- lift (np_zeros (num self) (fft_length self)) ;;
   imag_arr <- lift (np_zeros (num self) (fft_length self)) ;;
   w <- call (pwtObj_pwt data_arr) ;;
   let real_arr := fill (fun k => fst (spectrum lib w k)) real_arr in
   let imag_arr := fill (fun k => snd (spectrum lib w k)) imag_arr in
   ret (np_complex real_arr imag_arr))%py.

Definition y_coords (self : t) : py (list Q) :=
  (y_coords <- get_fre_band_arr self ;;
   ret (np_insert0 y_coords (low_fre self)))%py.

End Bindings.

End PWT.

(** ** Vocabulary of the statements *)

(** The frequencies [PWT.__init__] settles on before it validates them. *)
Definition PWT_low_fre (a : PWT.args) : Q :=
  match kw (Some 0%Q) (PWT.arg_low_fre a) with
  | None =>
      if PWT.octave_or_log (kw OCTAVE (PWT.arg_scale_type a))
      then note_to_hz_C1 else 0%Q
  | Some v => v
  end.

Definition PWT_high_fre (a : PWT.args) : Q :=
  match kw (Some (inject_Z 16000)) (PWT.arg_high_fre a) with
  | None => (inject_Z (kw 32000%Z (PWT.arg_samplate a)) / inject_Z 2)%Q
  | Some v => v
  end.

(** The frequency of bin [min_index + i], exactly:
    [(min_index + i) * samplate / fft_length]. *)
Definition band_value (min_index samplate fft_length : Z) (i : nat) : Q :=
  (inject_Z (min_index + Z.of_nat i) * inject_Z samplate / inject_Z fft_length)%Q.

(** Entry [k] of [get_fre_band_arr], as float32 computes it. *)
Definition band_f32 (min_index samplate fft_length k : Z) : Q :=
  f32 (f32 (arange_f32_at min_index k * f32 (inject_Z samplate))
       / f32 (inject_Z fft_length)).

(** No float32 operation of [get_fre_band_arr] rounds: [samplate] is
    [s' * 2^t] with every [bin * s'] below [2^24], so that each product
    [bin * samplate] is a binary32 value, and [fft_length = 2^radix2_exp]
    is one too.  The bounds 104 and 127 keep the values finite. *)
Definition products_exact (max_index samplate radix2_exp : Z) : Prop :=
  exists s' t,
    samplate = s' * 2 ^ t /\ 0 < s' /\ 0 <= t <= 104 /\
    max_index * s' < 2 ^ 24 /\ radix2_exp <= 127.

(** Each element is below the next one. *)
Fixpoint strictly_increasing (l : list Q) : bool :=
  match l with
  | x :: (y :: _) as tl => Qltb x y && strictly_increasing tl
  | _ => true
  end.


(** An array of [rows] rows and [cols] columns, with a buffer to match. *)
Definition has_shape {A} (m : ndarray2 A) (rows cols : Z) : Prop :=
  shape m = (rows, cols) /\ length (flat m) = Z.to_nat (rows * cols).

(** A transform that returns, after one call into the library made from
    world [w], a complex matrix of [rows] rows and [cols] columns, real and
    imaginary plane alike. *)
Definition returns_matrix (run : py (ndarray2 (Q * Q))) (w : world)
    (rows cols : Z) : Prop :=
  exists m c,
    run w = (Ok m, c :: w) /\
    has_shape m rows cols /\
    has_shape (real_plane m) rows cols /\
    has_shape (imag_plane m) rows cols.

(** A transform that raises from world [w] and leaves the world as it was;
    when [check_audio] had no objection the error is the length error. *)
Definition rejects_length {A} (check_audio : list Q -> result unit)
    (run : py A) (w : world) (data_arr : list Q) (fft_length : Z) : Prop :=
  exists e,
    run w = (Err e, w) /\
    (check_audio data_arr = Ok tt ->
     e = ValueError (AudioLength (length data_arr) fft_length)).

(** What C2 asks of a band array: [num] values, the [i]-th being the
    frequency of bin [lo + i], each below the next, all between the
    frequencies of bins [lo] and [hi]. *)
Definition band_contract (arr : list Q) (lo hi s N num : Z) : Prop :=
  num = hi - lo + 1 /\
  length arr = Z.to_nat num /\
  (forall i, (i < Z.to_nat num)%nat ->
     exists x, nth_error arr i = Some x /\ (x == band_value lo s N i)%Q) /\
  strictly_increasing arr = true /\
  (forall i j x y, (i < j)%nat ->
     nth_error arr i = Some x -> nth_error arr j = Some y -> (x < y)%Q) /\
  (forall v, In v arr ->
     (inject_Z lo * inject_Z s / inject_Z N <= v
      /\ v <= inject_Z hi * inject_Z s / inject_Z N)%Q).



(** The arguments [a] with [max_index] given as [hi]. *)
Definition ST_with_max (a : ST.args) (hi : Z) : ST.args :=
  {| ST.arg_radix2_exp := ST.arg_radix2_exp a;
     ST.arg_min_index := ST.arg_min_index a;
     ST.arg_max_index := Some hi;
     ST.arg_samplate := ST.arg_samplate a;
     ST.arg_factor := ST.arg_factor a;
     ST.arg_norm := ST.arg_norm a |}.

Definition FST_with_max (a : FST.args) (hi : Z) : FST.args :=
  {| FST.arg_radix2_exp := FST.arg_radix2_exp a;
     FST.arg_min_index := FST.arg_min_index a;
     FST.arg_max_index := Some hi;
     FST.arg_samplate := FST.arg_samplate a |}.

(** ** Sample collaborators and instances *)

(** A [check_audio] that accepts every array. *)
Definition accept_all (data_arr : list Q) : result unit := Ok tt.

(** A library that writes [k + 1j] at offset [k] and whose band array
    holds 100, 101, ... *)
Definition ramp_lib : native_lib :=
  {| spectrum := fun _ k => (inject_Z (Z.of_nat k), 1%Q);
     fre_band := fun _ k => inject_Z (100 + Z.of_nat k) |}.

(** [ST(radix2_exp=r, min_index=lo, max_index=hi, samplate=s)]. *)
Definition ST_args (r lo : Z) (hi : option Z) (s : Z) : ST.args :=
  {| ST.arg_radix2_exp := Some r;
     ST.arg_min_index := Some lo;
     ST.arg_max_index := hi;
     ST.arg_samplate := Some s;
     ST.arg_factor := None;
     ST.arg_norm := None |}.

Definition FST_args (r lo : Z) (hi : option Z) (s : Z) : FST.args :=
  {| FST.arg_radix2_exp := Some r;
     FST.arg_min_index := Some lo;
     FST.arg_max_index := hi;
     FST.arg_samplate := Some s |}.

(** [PWT(num, radix2_exp=r, samplate=s, low_fre=lo, scale_type=sc)], with
    [high_fre] and the remaining keywords left out. *)
Definition PWT_args (n r s : Z) (lo : option (option Q))
    (sc : SpectralFilterBankScaleType) : PWT.args :=
  {| PWT.arg_num := n;
     PWT.arg_radix2_exp := Some r;
     PWT.arg_samplate := Some s;
     PWT.arg_low_fre := lo;
     PWT.arg_high_fre := None;
     PWT.arg_bin_per_octave := None;
     PWT.arg_scale_type := Some sc;
     PWT.arg_style_type := None;
     PWT.arg_normal_type := None;
     PWT.arg_is_padding := None |}.

(** What [ST] and [FST] build from [radix2_exp=3, min_index=1,
    max_index=2, samplate=s]. *)
Definition ST_sample (s : Z) : ST.t :=
  {| ST.radix2_exp := 3; ST.samplate := s; ST.min_index := 1;
     ST.max_index := 2; ST.factor := 1; ST.norm := 1;
     ST.fft_length := 8; ST.num := 2 |}.

Definition FST_sample (s : Z) : FST.t :=
  {| FST.radix2_exp := 3; FST.min_index := 1; FST.max_index := 2;
     FST.samplate := s; FST.fft_length := 8; FST.num := 2 |}.

(** What [PWT(n, radix2_exp=3, samplate=8, scale_type=LINSPACE)] builds. *)
Definition PWT_sample (n : Z) : PWT.t :=
  {| PWT.num := n; PWT.radix2_exp := 3; PWT.samplate := 8;
     PWT.low_fre := 0; PWT.high_fre := inject_Z 16000;
     PWT.bin_per_octave := 12; PWT.scale_type := LINSPACE;
     PWT.style_type := SLANEY; PWT.normal_type := NONE;
     PWT.is_padding := true; PWT.fft_length := 8 |}.

(** What [PWT(84, radix2_exp=12, samplate=s, low_fre=32.703,
    scale_type=OCTAVE)] builds. *)
Definition PWT_octave_sample (s : Z) : PWT.t :=
  {| PWT.num := 84; PWT.radix2_exp := 12; PWT.samplate := s;
     PWT.low_fre := 32703 # 1000; PWT.high_fre := inject_Z 16000;
     PWT.bin_per_octave := 12; PWT.scale_type := OCTAVE;
     PWT.style_type := SLANEY; PWT.normal_type := NONE;
     PWT.is_padding := true; PWT.fft_length := 4096 |}.

(** What [FST(radix2_exp=25)] builds: bins 1 to [2^24 - 1] at 32000 Hz. *)
Definition FST_wide : FST.t :=
  {| FST.radix2_exp := 25; FST.min_index := 1; FST.max_index := 16777215;
     FST.samplate := 32000; FST.fft_length := 33554432;
     FST.num := 16777215 |}.

(** A signal of [n] zero samples. *)
Definition silence (n : nat) : list Q := repeat 0%Q n.

(** ** audioflux/pwt.py, the remaining bindings *)

(** The calls [get_bin_band_arr], [enable_det] and [pwt_det] make. *)
Inductive det_call : Type :=
| pwtObj_getBinBandArr
| pwtObj_enableDet (flag : Z)
| pwtObj_pwtDet (data : list Q).

(** A log that holds these calls beside the earlier ones. *)
Definition det_world := list (native_call + det_call).

(** What the native side produces for them: the complex value [pwt_det]
    finds at a flat offset of its buffers, and the integer found at an
    offset of the bin array a PWT object owns. *)
Record det_lib : Type := {
  det_spectrum : det_world -> nat -> Q * Q;
  bin_band : det_world -> nat -> Z
}.

Definition det_py (A : Type) : Type := det_world -> result A * det_world.

Definition det_ret {A} (a : A) : det_py A := fun w => (Ok a, w).
Definition det_raise {A} (e : exn) : det_py A := fun w => (Err e, w).
Definition det_bind {A B} (m : det_py A) (k : A -> det_py B) : det_py B :=
  fun w => match m w with
           | (Ok a, w') => k a w'
           | (Err e, w') => (Err e, w')
           end.
Definition det_lift {A} (r : result A) : det_py A := fun w => (r, w).
Definition det_call_native (c : det_call) : det_py det_world :=
  fun w => (Ok (inr c :: w), inr c :: w).

Module PWT_det.

Section Bindings.

Variable check_audio : list Q -> result unit.
Variable lib : det_lib.

(** [(c_int * self.num).from_address(p)], copied out. *)
Definition get_bin_band_arr (self : PWT.t) : det_py (list Z) :=
  det_bind (det_call_native pwtObj_getBinBandArr) (fun w =>
  if PWT.num self <? 0 then det_raise (ValueError NegativeArrayLength)
  else det_ret (map (bin_band lib w) (seq 0 (Z.to_nat (PWT.num self))))).

Definition enable_det (self : PWT.t) (flag : bool) : det_py unit :=
  det_bind (det_call_native (pwtObj_enableDet (c_int (Z.b2z flag))))
    (fun _ => det_ret tt).

Definition pwt_det (self : PWT.t) (data_arr : list Q)
  : det_py (ndarray2 (Q * Q)) :=
  det_bind (det_lift (check_audio data_arr)) (fun _ =>
  det_bind (det_lift (check_audio_length data_arr (PWT.radix2_exp self)))
    (fun data_arr =>
  det_bind (det_lift (np_zeros (PWT.num self) (PWT.fft_length self)))
    (fun real_arr =>
  det_bind (det_lift (np_zeros (PWT.num self) (PWT.fft_length self)))
    (fun imag_arr =>
  det_bind (det_call_native (pwtObj_pwtDet data_arr)) (fun w =>
  let real_arr := fill (fun k => fst (det_spectrum lib w k)) real_arr in
  let imag_arr := fill (fun k => snd (det_spectrum lib w k)) imag_arr in
  det_ret (np_complex real_arr imag_arr)))))).

End Bindings.

End PWT_det.

(** ** Vocabulary of the further statements *)

(** The index arguments of [ST] and [FST], read as [__init__] reads them. *)
Definition ST_radix2_exp (a : ST.args) : Z := kw 12 (ST.arg_radix2_exp a).
Definition ST_min_index (a : ST.args) : Z := kw 1 (ST.arg_min_index a).
Definition ST_max_index (a : ST.args) : Z :=
  kw (2 ^ ST_radix2_exp a / 2 - 1) (ST.arg_max_index a).

Definition FST_radix2_exp (a : FST.args) : Z := kw 12 (FST.arg_radix2_exp a).
Definition FST_min_index (a : FST.args) : Z := kw 1 (FST.arg_min_index a).
Definition FST_max_index (a : FST.args) : Z :=
  kw (2 ^ FST_radix2_exp a / 2 - 1) (FST.arg_max_index a).

(** The three tests of [ST.__init__] and [FST.__init__], all passed. *)
Definition index_range (r lo hi : Z) : Prop :=
  0 <= r /\ 1 <= lo /\ lo < hi /\ 2 * hi < 2 ^ r.

(** What a [ValueError] of [ST.__init__] or [FST.__init__] tells: the first
    test that failed, in the order of the source. *)
Definition index_error (r lo hi : Z) (msg : message) : Prop :=
  match msg with
  | NegativeShiftCount => r < 0
  | MinIndexNotPositive m => 0 <= r /\ m = lo /\ lo < 1
  | MaxIndexTooLarge m => 0 <= r /\ 1 <= lo /\ m = hi /\ 2 ^ r <= 2 * hi
  | MinIndexNotBelowMax l h =>
      0 <= r /\ l = lo /\ h = hi /\ 1 <= lo /\ 2 * hi < 2 ^ r /\ hi <= lo
  | _ => False
  end.

(** The tests of [PWT.__init__], all passed. *)
Definition PWT_accepts (a : PWT.args) : Prop :=
  let scale := kw OCTAVE (PWT.arg_scale_type a) in
  (scale = OCTAVE -> 1 <= kw 12 (PWT.arg_bin_per_octave a)) /\
  (PWT.octave_or_log scale = true -> (32703 # 1000 <= PWT_low_fre a)%Q) /\
  (0 <= PWT_low_fre a)%Q /\
  0 <= kw 12 (PWT.arg_radix2_exp a).



Definition FST_defaults (r : Z) : FST.args :=
  {| FST.arg_radix2_exp := Some r; FST.arg_min_index := None;
     FST.arg_max_index := None; FST.arg_samplate := None |}.

(** [PWT(num)], every keyword left out. *)
Definition PWT_defaults (n : Z) : PWT.args :=
  {| PWT.arg_num := n; PWT.arg_radix2_exp := None; PWT.arg_samplate := None;
     PWT.arg_low_fre := None; PWT.arg_high_fre := None;
     PWT.arg_bin_per_octave := None; PWT.arg_scale_type := None;
     PWT.arg_style_type := None; PWT.arg_normal_type := None;
     PWT.arg_is_padding := None |}.

(** A library for the remaining bindings: [k + 1j] at offset [k], bins
    [3, 4, ...]. *)
Definition ramp_det_lib : det_lib :=
  {| det_spectrum := fun _ k => (inject_Z (Z.of_nat k), 1%Q);
     bin_band := fun _ k => 3 + Z.of_nat k |}.

(** * Properties *)

(** ** The primitives *)

Ltac py_unfold := unfold bind, lift, raise, ret, call in *.

Lemma lshift1_ok (n : Z) : 0 <= n -> lshift1 n = Ok (2 ^ n).
Proof.
  intros Hn. unfold lshift1.
  destruct (Z.ltb_spec n 0); [lia |].
  now rewrite Z.shiftl_1_l.
Qed.

Lemma lshift1_inv (n v : Z) : lshift1 n = Ok v -> 0 <= n /\ v = 2 ^ n.
Proof.
  unfold lshift1. destruct (Z.ltb_spec n 0); [discriminate |].
  intros [= <-]. now rewrite Z.shiftl_1_l.
Qed.

Lemma lshift1_neg (n : Z) : n < 0 -> lshift1 n = Err (ValueError NegativeShiftCount).
Proof.
  intros Hn. unfold lshift1. destruct (Z.ltb_spec n 0); [reflexivity | lia].
Qed.

Lemma Qgeb_half (m f : Z) :
  Qgeb (inject_Z m) (inject_Z f / inject_Z 2) = (f <=? 2 * m).
Proof.
  unfold Qgeb, Qle_bool, Qdiv, Qmult, Qinv, inject_Z.
  cbn [Qnum Qden Pos.mul]. change (QDen 1) with 1.
  destruct (Z.leb_spec (f * 1 * 1) (m * 2)), (Z.leb_spec f (2 * m));
    reflexivity || lia.
Qed.

Lemma Qltb_true (x y : Q) : Qltb x y = true <-> (x < y)%Q.
Proof.
  unfold Qltb. rewrite negb_true_iff. split.
  - intros H. apply Qnot_le_lt. intros Hle.
    apply Qle_bool_iff in Hle. congruence.
  - intros H. destruct (Qle_bool y x) eqn:E; [| reflexivity].
    apply Qle_bool_iff in E. exfalso. exact (Qlt_not_le _ _ H E).
Qed.

Lemma Qltb_false (x y : Q) : Qltb x y = false <-> (y <= x)%Q.
Proof.
  unfold Qltb. rewrite negb_false_iff. apply Qle_bool_iff.
Qed.

Lemma round3_C1 : round3 note_to_hz_C1 = (32703 # 1000)%Q.
Proof. reflexivity. Qed.

Lemma np_arange_length (a b : Z) : length (np_arange a b) = Z.to_nat (b - a).
Proof. unfold np_arange. now rewrite length_map, length_seq. Qed.

Lemma np_zeros_ok (rows cols : Z) :
  0 <= rows -> 0 <= cols ->
  np_zeros rows cols =
    Ok {| shape := (rows, cols); flat := repeat 0%Q (Z.to_nat (rows * cols)) |}.
Proof.
  intros Hr Hc. unfold np_zeros.
  destruct (Z.ltb_spec rows 0); [lia |].
  destruct (Z.ltb_spec cols 0); [lia | reflexivity].
Qed.

Lemma check_audio_length_ok (data_arr : list Q) (r : Z) :
  0 <= r -> Z.of_nat (length data_arr) = 2 ^ r ->
  check_audio_length data_arr r = Ok data_arr.
Proof.
  intros Hr Hlen. unfold check_audio_length. rewrite (lshift1_ok _ Hr).
  destruct (Z.eqb_spec (Z.of_nat (length data_arr)) (2 ^ r)); [reflexivity | lia].
Qed.

Lemma check_audio_length_err (data_arr : list Q) (r : Z) :
  0 <= r -> Z.of_nat (length data_arr) <> 2 ^ r ->
  check_audio_length data_arr r =
    Err (ValueError (AudioLength (length data_arr) (2 ^ r))).
Proof.
  intros Hr Hlen. unfold check_audio_length. rewrite (lshift1_ok _ Hr).
  destruct (Z.eqb_spec (Z.of_nat (length data_arr)) (2 ^ r)); [lia | reflexivity].
Qed.

(** ** Construction *)

(** What a successful [ST(...)] fixes. *)
Lemma ST_init_inv (a : ST.args) (w w' : world) (self : ST.t) :
  ST.__init__ a w = (Ok self, w') ->
  let r := kw 12 (ST.arg_radix2_exp a) in
  0 <= r /\
  ST.radix2_exp self = r /\
  ST.fft_length self = 2 ^ r /\
  ST.min_index self = kw 1 (ST.arg_min_index a) /\
  ST.max_index self = kw (2 ^ r / 2 - 1) (ST.arg_max_index a) /\
  ST.samplate self = kw 32000 (ST.arg_samplate a) /\
  ST.num self = ST.max_index self - ST.min_index self + 1 /\
  1 <= ST.min_index self < ST.max_index self /\
  2 * ST.max_index self < ST.fft_length self /\
  w' = stObj_new (c_int r) (c_int (ST.min_index self))
         (c_int (ST.max_index self)) (ST.factor self) (ST.norm self) :: w.
Proof.
  intros H r. unfold ST.__init__ in H. py_unfold. fold r in H.
  destruct (lshift1 r) as [f | e] eqn:Ef; [| discriminate].
  apply lshift1_inv in Ef. destruct Ef as [Hr ->].
  rewrite Qgeb_half in H.
  assert (Hmax : match ST.arg_max_index a with
                 | Some m => m
                 | None => 2 ^ r / 2 - 1
                 end = kw (2 ^ r / 2 - 1) (ST.arg_max_index a))
    by (destruct (ST.arg_max_index a); reflexivity).
  rewrite Hmax in H. clear Hmax.
  destruct (Z.ltb_spec (kw 1 (ST.arg_min_index a)) 1); [discriminate |].
  destruct (Z.leb_spec (2 ^ r) (2 * kw (2 ^ r / 2 - 1) (ST.arg_max_index a)));
    [discriminate |].
  rewrite Z.geb_leb in H.
  destruct (Z.leb_spec (kw (2 ^ r / 2 - 1) (ST.arg_max_index a))
              (kw 1 (ST.arg_min_index a))); [discriminate |].
  injection H as <- <-.
  cbn [ST.radix2_exp ST.samplate ST.min_index ST.max_index ST.factor ST.norm
         ST.fft_length ST.num].
  repeat split; try reflexivity; lia.
Qed.



Lemma FST_init_inv (a : FST.args) (w w' : world) (self : FST.t) :
  FST.__init__ a w = (Ok self, w') ->
  let r := kw 12 (FST.arg_radix2_exp a) in
  0 <= r /\
  FST.radix2_exp self = r /\
  FST.fft_length self = 2 ^ r /\
  FST.min_index self = kw 1 (FST.arg_min_index a) /\
  FST.max_index self = kw (2 ^ r / 2 - 1) (FST.arg_max_index a) /\
  FST.samplate self = kw 32000 (FST.arg_samplate a) /\
  FST.num self = FST.max_index self - FST.min_index self + 1 /\
  1 <= FST.min_index self < FST.max_index self /\
  2 * FST.max_index self < FST.fft_length self /\
  w' = fstObj_new (c_int r) :: w.
Proof.
  intros H r. unfold FST.__init__ in H. py_unfold. fold r in H.
  destruct (lshift1 r) as [f | e] eqn:Ef; [| discriminate].
  apply lshift1_inv in Ef. destruct Ef as [Hr ->].
  rewrite Qgeb_half in H.
  assert (Hmax : match FST.arg_max_index a with
                 | Some m => m
                 | None => 2 ^ r / 2 - 1
                 end = kw (2 ^ r / 2 - 1) (FST.arg_max_index a))
    by (destruct (FST.arg_max_index a); reflexivity).
  rewrite Hmax in H. clear Hmax.
  destruct (Z.ltb_spec (kw 1 (FST.arg_min_index a)) 1); [discriminate |].
  destruct (Z.leb_spec (2 ^ r) (2 * kw (2 ^ r / 2 - 1) (FST.arg_max_index a)));
    [discriminate |].
  rewrite Z.geb_leb in H.
  destruct (Z.leb_spec (kw (2 ^ r / 2 - 1) (FST.arg_max_index a))
              (kw 1 (FST.arg_min_index a))); [discriminate |].
  injection H as <- <-.
  cbn [FST.radix2_exp FST.samplate FST.min_index FST.max_index
         FST.fft_length FST.num].
  repeat split; try reflexivity; lia.
Qed.



Lemma PWT_init_inv (a : PWT.args) (w w' : world) (self : PWT.t) :
  PWT.__init__ a w = (Ok self, w') ->
  let r := kw 12 (PWT.arg_radix2_exp a) in
  0 <= r /\
  PWT.radix2_exp self = r /\
  PWT.fft_length self = 2 ^ r /\
  PWT.num self = PWT.arg_num a /\
  PWT.samplate self = kw 32000 (PWT.arg_samplate a) /\
  PWT.low_fre self = PWT_low_fre a /\
  PWT.high_fre self = PWT_high_fre a /\
  (0 <= PWT.low_fre self)%Q /\
  exists c, w' = c :: w.
Proof.
  intros H r. unfold PWT.__init__ in H. py_unfold.
  fold (PWT_low_fre a) in H. fold (PWT_high_fre a) in H. fold r in H.
  destruct (scale_eqb _ OCTAVE && _); [discriminate |].
  destruct (PWT.octave_or_log _ && _); [discriminate |].
  destruct (Qltb (PWT_low_fre a) 0) eqn:Elow; [discriminate |].
  apply Qltb_false in Elow.
  destruct (lshift1 r) as [f | e] eqn:Ef; [| discriminate].
  apply lshift1_inv in Ef. destruct Ef as [Hr ->].
  injection H as <- <-.
  cbn [PWT.radix2_exp PWT.fft_length PWT.num PWT.samplate PWT.low_fre
         PWT.high_fre].
  repeat split; try reflexivity; try assumption.
  eexists. reflexivity.
Qed.


(** ** float32 rounding *)

Lemma two_pow_pos (e : Z) : (0 < 2 ^ e)%Q.
Proof. apply Qpower_0_lt. reflexivity. Qed.

Lemma round_half_even_Z (q : Q) (z : Z) :
  (q == inject_Z z)%Q -> round_half_even q = z.
Proof.
  intros Hq. unfold round_half_even.
  assert (Hf : Qfloor q = z) by (rewrite Hq; apply Qfloor_Z).
  rewrite Hf.
  assert (Hr : Qltb (q - inject_Z z) (1 # 2) = true).
  { apply Qltb_true. rewrite Hq.
    setoid_replace (inject_Z z - inject_Z z)%Q with 0%Q by ring.
    reflexivity. }
  now rewrite Hr.
Qed.

(** [ilog2] does not overshoot. *)
Lemma ilog2_le (x : Q) : ~ (x == 0)%Q -> (2 ^ ilog2 x <= Qabs x)%Q.
Proof.
  destruct x as [nx dx]. intros Hx. unfold ilog2. cbn [Qnum Qden].
  set (n := Z.abs nx). set (d := Zpos dx).
  destruct (Qle_bool (2 ^ (Z.log2 n - Z.log2 d)) (Qabs (nx # dx))) eqn:E.
  - now apply Qle_bool_iff.
  - assert (Hn : 0 < n).
    { unfold n. destruct nx as [| p | p]; cbn; try lia.
      exfalso. apply Hx. reflexivity. }
    assert (Hd : 0 < d) by (unfold d; lia).
    destruct (Z.log2_spec n Hn) as [Hn1 Hn2].
    destruct (Z.log2_spec d Hd) as [Hd1 Hd2].
    set (a := Z.log2 n) in *. set (b := Z.log2 d) in *.
    assert (Ha : 0 <= a) by apply Z.log2_nonneg.
    assert (Hb : 0 <= b) by apply Z.log2_nonneg.
    replace (a - b - 1) with (a - (b + 1)) by lia.
    rewrite Qpower_minus by discriminate.
    rewrite <- !(Zpower_Qpower 2) by lia.
    change (Qabs (nx # dx)) with (n # dx).
    apply Qle_shift_div_r.
    + change 0%Q with (inject_Z 0). rewrite <- Zlt_Qlt. lia.
    + unfold Qle, Qmult, inject_Z. cbn [Qnum Qden].
      rewrite Z.mul_1_r, Pos.mul_1_r. fold d.
      replace (2 ^ Z.succ b) with (2 ^ (b + 1)) in Hd2 by (f_equal; lia).
      nia.
Qed.

Lemma f32_zero (x : Q) : (x == 0)%Q -> (f32 x == 0)%Q.
Proof.
  intros Hx. unfold f32.
  rewrite (round_half_even_Z _ 0).
  - apply Qmult_0_l.
  - unfold Qdiv. transitivity (0 * / ulp32 x)%Q.
    + apply Qmult_comp; [exact Hx | reflexivity].
    + apply Qmult_0_l.
Qed.

(** A number with at most 24 significant bits and an exponent float32
    reaches is a float32 value: rounding leaves it alone. *)
Lemma f32_exact (x : Q) (m t : Z) :
  (x == inject_Z m * 2 ^ t)%Q -> Z.abs m < 2 ^ 24 -> -149 <= t ->
  (f32 x == x)%Q.
Proof.
  intros Hx Hm Ht.
  destruct (Z.eq_dec m 0) as [-> | Hm0].
  { assert (H0 : (x == 0)%Q) by (rewrite Hx; apply Qmult_0_l).
    rewrite (f32_zero x H0). now rewrite H0. }
  unfold f32, ulp32.
  set (E := Z.max (ilog2 x) (-126)).
  assert (HE : E - 23 <= t).
  { assert (Hnz : ~ (x == 0)%Q).
    { rewrite Hx. intros H0. apply Qmult_integral in H0.
      destruct H0 as [H0 | H0].
      - change 0%Q with (inject_Z 0) in H0.
        rewrite inject_Z_injective in H0. lia.
      - revert H0. apply Qpower_not_0. discriminate. }
    pose proof (ilog2_le x Hnz) as Hlo.
    assert (Hup : (Qabs x < 2 ^ (24 + t))%Q).
    { rewrite Hx, Qabs_Qmult.
      rewrite (Qabs_pos (2 ^ t)) by (apply Qlt_le_weak, two_pow_pos).
      rewrite Qpower_plus by discriminate.
      apply Qmult_lt_compat_r; [apply two_pow_pos |].
      change (Qabs (inject_Z m)) with (inject_Z (Z.abs m)).
      change (2 ^ 24)%Q with (inject_Z (2 ^ 24)). now rewrite <- Zlt_Qlt. }
    assert (Hlt : ilog2 x < 24 + t).
    { apply (Qpower_lt_compat_l_inv 2); [| reflexivity].
      eapply Qle_lt_trans; eassumption. }
    unfold E. lia. }
  set (k := t - (E - 23)).
  assert (Hq : (x / 2 ^ (E - 23) == inject_Z (m * 2 ^ k))%Q).
  { rewrite Hx, inject_Z_mult, (Zpower_Qpower 2) by (unfold k; lia).
    change (inject_Z 2) with 2%Q. unfold k.
    rewrite (Qpower_minus 2 t (E - 23)) by discriminate.
    unfold Qdiv. ring. }
  rewrite (round_half_even_Z _ _ Hq).
  rewrite Hx, inject_Z_mult, (Zpower_Qpower 2) by (unfold k; lia).
  change (inject_Z 2) with 2%Q.
  rewrite <- Qmult_assoc, <- Qpower_plus by discriminate.
  replace (k + (E - 23)) with t by (unfold k; lia). reflexivity.
Qed.

(** In particular an integer below [2^24] in size. *)
Lemma f32_Z (x : Q) (m : Z) :
  (x == inject_Z m)%Q -> Z.abs m < 2 ^ 24 -> (f32 x == inject_Z m)%Q.
Proof.
  intros Hx Hm. rewrite (f32_exact x m 0); [exact Hx | | exact Hm | lia].
  rewrite Hx. cbn [Qpower]. ring.
Qed.

(** ** Frequency bands of ST and FST *)

Lemma nth_error_map_seq {A} (f : nat -> A) (n i : nat) :
  (i < n)%nat -> nth_error (map f (seq 0 n)) i = Some (f i).
Proof.
  intros Hi. rewrite nth_error_map.
  rewrite (nth_error_nth' _ 0%nat) by (rewrite length_seq; exact Hi).
  rewrite seq_nth by exact Hi. reflexivity.
Qed.

Lemma strictly_increasing_map_seq (f : nat -> Q) (a n : nat) :
  (forall i, (a <= i)%nat -> (S i < a + n)%nat -> (f i < f (S i))%Q) ->
  strictly_increasing (map f (seq a n)) = true.
Proof.
  revert a. induction n as [| n IH]; intros a Hf; [reflexivity |].
  destruct n as [| n]; [reflexivity |].
  assert (IH' : strictly_increasing (map f (seq (S a) (S n))) = true)
    by (apply IH; intros i Hi1 Hi2; apply Hf; lia).
  cbn [seq map] in IH' |- *.
  cbn [strictly_increasing]. apply andb_true_iff. split.
  - apply Qltb_true, Hf; lia.
  - exact IH'.
Qed.

Section Band.

Variables lo hi s N : Z.

Local Abbreviation band := (np_div (np_mul (np_arange_f32 lo (hi + 1)) s) N).

Lemma band_closed_form :
  band = map (fun i => band_f32 lo s N (Z.of_nat i))
             (seq 0 (Z.to_nat (hi - lo + 1))).
Proof.
  unfold np_div, np_mul, np_arange_f32. rewrite !map_map.
  replace (hi + 1 - lo) with (hi - lo + 1) by lia. reflexivity.
Qed.

Lemma band_length : length band = Z.to_nat (hi - lo + 1).
Proof. rewrite band_closed_form. now rewrite length_map, length_seq. Qed.

Lemma band_nth (i : nat) :
  (i < Z.to_nat (hi - lo + 1))%nat ->
  nth_error band i = Some (band_f32 lo s N (Z.of_nat i)).
Proof.
  intros Hi. rewrite band_closed_form.
  now rewrite (nth_error_map_seq (fun i => band_f32 lo s N (Z.of_nat i))).
Qed.

Hypothesis s_pos : 0 < s.
Hypothesis N_pos : 0 < N.

Lemma band_value_le (i j : nat) :
  (i <= j)%nat -> (band_value lo s N i <= band_value lo s N j)%Q.
Proof.
  intros Hij. unfold band_value, Qdiv.
  apply Qmult_le_compat_r.
  - apply Qmult_le_compat_r.
    + rewrite <- Zle_Qle. lia.
    + change 0%Q with (inject_Z 0). rewrite <- Zle_Qle. lia.
  - apply Qlt_le_weak, Qinv_lt_0_compat.
    change 0%Q with (inject_Z 0). rewrite <- Zlt_Qlt. exact N_pos.
Qed.

Lemma band_value_lt (i j : nat) :
  (i < j)%nat -> (band_value lo s N i < band_value lo s N j)%Q.
Proof.
  intros Hij. unfold band_value, Qdiv.
  apply Qmult_lt_compat_r.
  - apply Qinv_lt_0_compat.
    change 0%Q with (inject_Z 0). rewrite <- Zlt_Qlt. exact N_pos.
  - apply Qmult_lt_compat_r.
    + change 0%Q with (inject_Z 0). rewrite <- Zlt_Qlt. exact s_pos.
    + rewrite <- Zlt_Qlt. lia.
Qed.

End Band.

(** Below [2^24] the float32 [arange] holds the integers themselves. *)
Lemma arange_f32_exact (lo hi k : Z) :
  0 <= lo -> hi < 2 ^ 24 -> 0 <= k -> lo + k <= hi ->
  (arange_f32_at lo k == inject_Z (lo + k))%Q.
Proof.
  intros Hlo Hhi Hk Hle. unfold arange_f32_at. cbv zeta.
  assert (Hfirst : (f32 (inject_Z lo) == inject_Z lo)%Q)
    by (apply f32_Z; [reflexivity | lia]).
  destruct (Z.eqb_spec k 0) as [-> | Hk0].
  { now rewrite Z.add_0_r. }
  assert (Hsecond : (f32 (inject_Z (lo + 1)) == inject_Z (lo + 1))%Q)
    by (apply f32_Z; [reflexivity | lia]).
  destruct (Z.eqb_spec k 1) as [-> | Hk1]; [exact Hsecond |].
  assert (Hdelta : (f32 (f32 (inject_Z (lo + 1)) - f32 (inject_Z lo))
                    == inject_Z 1)%Q).
  { apply f32_Z; [| reflexivity].
    rewrite Hsecond, Hfirst, inject_Z_plus. ring. }
  assert (Hkk : (f32 (inject_Z k) == inject_Z k)%Q)
    by (apply f32_Z; [reflexivity | lia]).
  assert (Hstep : (f32 (f32 (inject_Z k)
                        * f32 (f32 (inject_Z (lo + 1)) - f32 (inject_Z lo)))
                   == inject_Z k)%Q).
  { apply f32_Z; [| lia]. rewrite Hkk, Hdelta. ring. }
  apply f32_Z; [| lia].
  rewrite Hstep, Hfirst, inject_Z_plus. reflexivity.
Qed.

(** When no product rounds, entry [i] of the band array is the rational
    [(lo + i) * samplate / fft_length]. *)
Lemma band_f32_exact (lo hi s' t r : Z) (i : nat) :
  1 <= lo -> 0 < s' -> 0 <= t -> 0 <= r <= 127 ->
  hi * s' < 2 ^ 24 -> lo + Z.of_nat i <= hi ->
  (band_f32 lo (s' * 2 ^ t) (2 ^ r) (Z.of_nat i)
   == band_value lo (s' * 2 ^ t) (2 ^ r) i)%Q.
Proof.
  intros Hlo Hs Ht Hr Hhi Hle. unfold band_f32, band_value.
  assert (Hk1 : (lo + Z.of_nat i) * s' <= hi * s')
    by (apply Z.mul_le_mono_nonneg_r; lia).
  assert (Hk0 : 0 <= (lo + Z.of_nat i) * s')
    by (apply Z.mul_nonneg_nonneg; lia).
  assert (Hhi1 : hi * 1 <= hi * s') by (apply Z.mul_le_mono_nonneg_l; lia).
  assert (Hs1 : 1 * s' <= hi * s') by (apply Z.mul_le_mono_nonneg_r; lia).
  assert (Hhi24 : hi < 2 ^ 24) by lia.
  assert (Hs24 : s' < 2 ^ 24) by lia.
  pose proof (arange_f32_exact lo hi (Z.of_nat i) ltac:(lia) Hhi24 ltac:(lia) Hle)
    as Ha.
  set (k := lo + Z.of_nat i) in *.
  assert (Hsq : (inject_Z (s' * 2 ^ t) == inject_Z s' * 2 ^ t)%Q)
    by (rewrite inject_Z_mult, (Zpower_Qpower 2) by lia; reflexivity).
  assert (HNq : (inject_Z (2 ^ r) == inject_Z 1 * 2 ^ r)%Q)
    by (rewrite (Zpower_Qpower 2) by lia; change (inject_Z 2) with 2%Q; ring).
  assert (HS : (f32 (inject_Z (s' * 2 ^ t)) == inject_Z (s' * 2 ^ t))%Q)
    by (apply (f32_exact _ s' t); [exact Hsq | lia | lia]).
  assert (HN : (f32 (inject_Z (2 ^ r)) == inject_Z (2 ^ r))%Q)
    by (apply (f32_exact _ 1 r); [exact HNq | reflexivity | lia]).
  assert (Hprod : (f32 (arange_f32_at lo (Z.of_nat i)
                        * f32 (inject_Z (s' * 2 ^ t)))
                   == inject_Z (k * s') * 2 ^ t)%Q).
  { assert (Harg : (arange_f32_at lo (Z.of_nat i) * f32 (inject_Z (s' * 2 ^ t))
                    == inject_Z (k * s') * 2 ^ t)%Q)
      by (rewrite Ha, HS, Hsq, inject_Z_mult; ring).
    rewrite (f32_exact _ (k * s') t Harg); [exact Harg | unfold k; lia | lia]. }
  assert (Harg : (f32 (arange_f32_at lo (Z.of_nat i)
                       * f32 (inject_Z (s' * 2 ^ t)))
                  / f32 (inject_Z (2 ^ r))
                  == inject_Z (k * s') * 2 ^ (t - r))%Q).
  { rewrite Hprod, HN, HNq, (Qpower_minus 2 t r) by discriminate.
    unfold Qdiv. rewrite Qmult_1_l. ring. }
  rewrite (f32_exact _ (k * s') (t - r) Harg); [| unfold k; lia | lia].
  rewrite Harg, Hsq, HNq, (Qpower_minus 2 t r), inject_Z_mult by discriminate.
  unfold Qdiv. rewrite Qmult_1_l. ring.
Qed.

Lemma products_exact_pos (hi s r : Z) : products_exact hi s r -> 0 < s.
Proof.
  intros (s' & t & -> & Hs & Ht & _).
  apply Z.mul_pos_pos; [exact Hs | apply Z.pow_pos_nonneg; lia].
Qed.

(** Entry [i] of the band array, and its value when no product rounds. *)
Lemma band_entry_exact (lo hi s r : Z) (i : nat) :
  1 <= lo -> 0 <= r -> products_exact hi s r ->
  (i < Z.to_nat (hi - lo + 1))%nat ->
  nth_error (np_div (np_mul (np_arange_f32 lo (hi + 1)) s) (2 ^ r)) i
    = Some (band_f32 lo s (2 ^ r) (Z.of_nat i)) /\
  (band_f32 lo s (2 ^ r) (Z.of_nat i) == band_value lo s (2 ^ r) i)%Q.
Proof.
  intros Hlo Hr (s' & t & -> & Hs & Ht & Hprod & Hr127) Hi.
  split; [now apply band_nth |].
  apply (band_f32_exact lo hi); lia.
Qed.

(** ** Time coordinates *)





Section Coords.

Variables N s : Z.
Hypothesis N_pos : 0 < N.

Local Abbreviation coords :=
  (match truediv N s with
   | Err e => Err e
   | Ok stop => np_linspace 0 stop (N + 1)
   end).

Lemma coords_zero_samplate : s = 0 -> coords = Err ZeroDivisionError.
Proof. intros ->. reflexivity. Qed.

Hypothesis s_nonzero : s <> 0.

Local Abbreviation stop := (inject_Z N / inject_Z s)%Q.



End Coords.

(** ** The transforms *)

Lemma spectrum_shape (f g : nat -> Q) (rows cols : Z) (re im : ndarray2 Q) :
  np_zeros rows cols = Ok re -> np_zeros rows cols = Ok im ->
  let m := np_complex (fill f re) (fill g im) in
  has_shape m rows cols /\
  has_shape (real_plane m) rows cols /\
  has_shape (imag_plane m) rows cols.
Proof.
  intros Hre Him m. unfold np_zeros in Hre, Him.
  destruct (_ || _); [discriminate |].
  injection Hre as <-. injection Him as <-.
  assert (Hm : has_shape m rows cols).
  { split; [reflexivity |].
    unfold m, np_complex, fill. cbn [flat].
    rewrite length_combine, !length_map, !length_seq, repeat_length.
    apply Nat.min_id. }
  split; [exact Hm |]. destruct Hm as [Hs Hl].
  split; (split; [exact Hs |]); cbn [real_plane imag_plane flat];
    rewrite length_map; exact Hl.
Qed.

Ltac transform_ok Hchk Hr Hfft Hlen Hnum :=
  py_unfold; rewrite Hchk;
  rewrite check_audio_length_ok by (assumption || (rewrite <- Hfft; exact Hlen));
  rewrite np_zeros_ok by (assumption || (rewrite Hfft; apply Z.pow_nonneg; lia));
  eexists; split; [reflexivity |];
  apply spectrum_shape;
  apply np_zeros_ok; assumption || (rewrite Hfft; apply Z.pow_nonneg; lia).

Ltac transform_err Hr Hfft Hlen :=
  py_unfold;
  match goal with
  | |- context [match ?c with Ok _ => _ | Err _ => _ end] =>
      destruct c as [[] | e0] eqn:Hchk
  end;
  [ rewrite check_audio_length_err
      by (assumption || (rewrite <- Hfft; exact Hlen));
    eexists; split; [reflexivity |]; intros _; rewrite Hfft; reflexivity
  | eexists; split; [reflexivity |]; intros [=] ].

Section Transforms.

Variable check_audio : list Q -> result unit.
Variable lib : native_lib.
Variable data_arr : list Q.
Variable w : world.

Lemma ST_st_ok (self : ST.t) :
  check_audio data_arr = Ok tt ->
  0 <= ST.radix2_exp self ->
  ST.fft_length self = 2 ^ ST.radix2_exp self ->
  Z.of_nat (length data_arr) = ST.fft_length self ->
  0 <= ST.num self ->
  exists m,
    ST.st check_audio lib self data_arr w = (Ok m, stObj_st data_arr :: w) /\
    has_shape m (ST.num self) (ST.fft_length self) /\
    has_shape (real_plane m) (ST.num self) (ST.fft_length self) /\
    has_shape (imag_plane m) (ST.num self) (ST.fft_length self).
Proof.
  intros Hchk Hr Hfft Hlen Hnum. unfold ST.st.
  transform_ok Hchk Hr Hfft Hlen Hnum.
Qed.

Lemma ST_st_err (self : ST.t) :
  0 <= ST.radix2_exp self ->
  ST.fft_length self = 2 ^ ST.radix2_exp self ->
  Z.of_nat (length data_arr) <> ST.fft_length self ->
  exists e,
    ST.st check_audio lib self data_arr w = (Err e, w) /\
    (check_audio data_arr = Ok tt ->
     e = ValueError (AudioLength (length data_arr) (ST.fft_length self))).
Proof.
  intros Hr Hfft Hlen. unfold ST.st. transform_err Hr Hfft Hlen.
Qed.

Lemma FST_fst_ok (self : FST.t) :
  check_audio data_arr = Ok tt ->
  0 <= FST.radix2_exp self ->
  FST.fft_length self = 2 ^ FST.radix2_exp self ->
  Z.of_nat (length data_arr) = FST.fft_length self ->
  0 <= FST.num self ->
  exists m,
    FST.fst check_audio lib self data_arr w =
      (Ok m, fstObj_fst data_arr (c_int (FST.min_index self))
               (c_int (FST.max_index self)) :: w) /\
    has_shape m (FST.num self) (FST.fft_length self) /\
    has_shape (real_plane m) (FST.num self) (FST.fft_length self) /\
    has_shape (imag_plane m) (FST.num self) (FST.fft_length self).
Proof.
  intros Hchk Hr Hfft Hlen Hnum. unfold FST.fst.
  transform_ok Hchk Hr Hfft Hlen Hnum.
Qed.

Lemma FST_fst_err (self : FST.t) :
  0 <= FST.radix2_exp self ->
  FST.fft_length self = 2 ^ FST.radix2_exp self ->
  Z.of_nat (length data_arr) <> FST.fft_length self ->
  exists e,
    FST.fst check_audio lib self data_arr w = (Err e, w) /\
    (check_audio data_arr = Ok tt ->
     e = ValueError (AudioLength (length data_arr) (FST.fft_length self))).
Proof.
  intros Hr Hfft Hlen. unfold FST.fst. transform_err Hr Hfft Hlen.
Qed.

Lemma PWT_pwt_ok (self : PWT.t) :
  check_audio data_arr = Ok tt ->
  0 <= PWT.radix2_exp self ->
  PWT.fft_length self = 2 ^ PWT.radix2_exp self ->
  Z.of_nat (length data_arr) = PWT.fft_length self ->
  0 <= PWT.num self ->
  exists m,
    PWT.pwt check_audio lib self data_arr w = (Ok m, pwtObj_pwt data_arr :: w) /\
    has_shape m (PWT.num self) (PWT.fft_length self) /\
    has_shape (real_plane m) (PWT.num self) (PWT.fft_length self) /\
    has_shape (imag_plane m) (PWT.num self) (PWT.fft_length self).
Proof.
  intros Hchk Hr Hfft Hlen Hnum. unfold PWT.pwt.
  transform_ok Hchk Hr Hfft Hlen Hnum.
Qed.

Lemma PWT_pwt_err (self : PWT.t) :
  0 <= PWT.radix2_exp self ->
  PWT.fft_length self = 2 ^ PWT.radix2_exp self ->
  Z.of_nat (length data_arr) <> PWT.fft_length self ->
  exists e,
    PWT.pwt check_audio lib self data_arr w = (Err e, w) /\
    (check_audio data_arr = Ok tt ->
     e = ValueError (AudioLength (length data_arr) (PWT.fft_length self))).
Proof.
  intros Hr Hfft Hlen. unfold PWT.pwt. transform_err Hr Hfft Hlen.
Qed.

End Transforms.

(** The sample instances are what the constructors build. *)
Lemma ST_sample_built (s : Z) (w : world) :
  ST.__init__ (ST_args 3 1 (Some 2) s) w =
    (Ok (ST_sample s), stObj_new 3 1 2 1 1 :: w).
Proof. reflexivity. Qed.

Lemma FST_sample_built (s : Z) (w : world) :
  FST.__init__ (FST_args 3 1 (Some 2) s) w =
    (Ok (FST_sample s), fstObj_new 3 :: w).
Proof. reflexivity. Qed.

Lemma PWT_sample_built (n : Z) (w : world) :
  PWT.__init__ (PWT_args n 3 8 None LINSPACE) w =
    (Ok (PWT_sample n),
     pwtObj_new (c_int n) 3 8 0 (inject_Z 16000) 12 LINSPACE 0 0 1 :: w).
Proof. reflexivity. Qed.

(** * The claims *)

(** C1, as the code has it: on a constructed ST or FST instance, and on a
    constructed PWT instance whose [num] is not negative, the transform of an
    accepted signal of [fft_length] samples returns a complex matrix whose
    real and imaginary planes both have [num] rows and [fft_length]
    columns. *)
Theorem transform_shape
    (check_audio : list Q -> result unit) (lib : native_lib)
    (data_arr : list Q) (w : world) :
  check_audio data_arr = Ok tt ->
  (forall a w0 w1 self,
      ST.__init__ a w0 = (Ok self, w1) ->
      Z.of_nat (length data_arr) = ST.fft_length self ->
      returns_matrix (ST.st check_audio lib self data_arr) w
        (ST.num self) (ST.fft_length self)) /\
  (forall a w0 w1 self,
      FST.__init__ a w0 = (Ok self, w1) ->
      Z.of_nat (length data_arr) = FST.fft_length self ->
      returns_matrix (FST.fst check_audio lib self data_arr) w
        (FST.num self) (FST.fft_length self)) /\
  (forall a w0 w1 self,
      PWT.__init__ a w0 = (Ok self, w1) ->
      0 <= PWT.num self ->
      Z.of_nat (length data_arr) = PWT.fft_length self ->
      returns_matrix (PWT.pwt check_audio lib self data_arr) w
        (PWT.num self) (PWT.fft_length self)).
Proof.
  intros Hchk. repeat split.
  - intros a w0 w1 self Hinit Hlen.
    destruct (ST_init_inv _ _ _ _ Hinit)
      as (Hr & Hrx & Hfft & _ & _ & _ & Hnum & Hlo & _).
    rewrite <- Hrx in Hr, Hfft.
    destruct (ST_st_ok check_audio lib data_arr w self) as (m & Hm & Hs);
      try assumption; try lia.
    exists m, (stObj_st data_arr). now split.
  - intros a w0 w1 self Hinit Hlen.
    destruct (FST_init_inv _ _ _ _ Hinit)
      as (Hr & Hrx & Hfft & _ & _ & _ & Hnum & Hlo & _).
    rewrite <- Hrx in Hr, Hfft.
    destruct (FST_fst_ok check_audio lib data_arr w self) as (m & Hm & Hs);
      try assumption; try lia.
    eexists m, _. split; [exact Hm | exact Hs].
  - intros a w0 w1 self Hinit Hnum Hlen.
    destruct (PWT_init_inv _ _ _ _ Hinit) as (Hr & Hrx & Hfft & _).
    rewrite <- Hrx in Hr, Hfft.
    destruct (PWT_pwt_ok check_audio lib data_arr w self) as (m & Hm & Hs);
      try assumption.
    exists m, (pwtObj_pwt data_arr). now split.
Qed.

Lemma transform_shape_witness :
  accept_all (silence 8) = Ok tt /\
  returns_matrix (ST.st accept_all ramp_lib (ST_sample 8) (silence 8)) [] 2 8 /\
  returns_matrix (FST.fst accept_all ramp_lib (FST_sample 8) (silence 8)) [] 2 8 /\
  returns_matrix (PWT.pwt accept_all ramp_lib (PWT_sample 3) (silence 8)) [] 3 8.
Proof.
  split; [reflexivity |].
  destruct (transform_shape accept_all ramp_lib (silence 8) [] eq_refl)
    as (HST & HFST & HPWT).
  split; [| split].
  - exact (HST _ [] _ (ST_sample 8) (ST_sample_built 8 []) eq_refl).
  - exact (HFST _ [] _ (FST_sample 8) (FST_sample_built 8 []) eq_refl).
  - refine (HPWT _ [] _ (PWT_sample 3) (PWT_sample_built 3 []) _ eq_refl).
    cbn. lia.
Defined.

(** C1 fails as stated: [PWT(num=-1, ...)] is constructed, and [pwt] then
    raises on [np.zeros((-1, 8))] instead of returning a matrix. *)
Lemma transform_shape_negative_num :
  PWT.__init__ (PWT_args (-1) 3 8 None LINSPACE) [] =
    (Ok (PWT_sample (-1)),
     [pwtObj_new (-1) 3 8 0 (inject_Z 16000) 12 LINSPACE 0 0 1]) /\
  accept_all (silence 8) = Ok tt /\
  Z.of_nat (length (silence 8)) = PWT.fft_length (PWT_sample (-1)) /\
  PWT.pwt accept_all ramp_lib (PWT_sample (-1)) (silence 8) [] =
    (Err (ValueError NegativeDimensions), []) /\
  ~ returns_matrix (PWT.pwt accept_all ramp_lib (PWT_sample (-1)) (silence 8)) []
      (PWT.num (PWT_sample (-1))) (PWT.fft_length (PWT_sample (-1))).
Proof.
  repeat split.
  intros (m & c & Hrun & _). discriminate Hrun.
Qed.

(** C3: on a constructed ST, FST or PWT instance, a signal whose length is
    not [fft_length] makes the transform raise, with no call into the native
    library and no output; nothing is padded or truncated. *)
Theorem transform_rejects_wrong_length
    (check_audio : list Q -> result unit) (lib : native_lib)
    (data_arr : list Q) (w : world) :
  (forall a w0 w1 self,
      ST.__init__ a w0 = (Ok self, w1) ->
      Z.of_nat (length data_arr) <> ST.fft_length self ->
      rejects_length check_audio (ST.st check_audio lib self data_arr) w
        data_arr (ST.fft_length self)) /\
  (forall a w0 w1 self,
      FST.__init__ a w0 = (Ok self, w1) ->
      Z.of_nat (length data_arr) <> FST.fft_length self ->
      rejects_length check_audio (FST.fst check_audio lib self data_arr) w
        data_arr (FST.fft_length self)) /\
  (forall a w0 w1 self,
      PWT.__init__ a w0 = (Ok self, w1) ->
      Z.of_nat (length data_arr) <> PWT.fft_length self ->
      rejects_length check_audio (PWT.pwt check_audio lib self data_arr) w
        data_arr (PWT.fft_length self)).
Proof.
  repeat split.
  - intros a w0 w1 self Hinit Hlen.
    destruct (ST_init_inv _ _ _ _ Hinit) as (Hr & Hrx & Hfft & _).
    rewrite <- Hrx in Hr, Hfft. now apply ST_st_err.
  - intros a w0 w1 self Hinit Hlen.
    destruct (FST_init_inv _ _ _ _ Hinit) as (Hr & Hrx & Hfft & _).
    rewrite <- Hrx in Hr, Hfft. now apply FST_fst_err.
  - intros a w0 w1 self Hinit Hlen.
    destruct (PWT_init_inv _ _ _ _ Hinit) as (Hr & Hrx & Hfft & _).
    rewrite <- Hrx in Hr, Hfft. now apply PWT_pwt_err.
Qed.

Lemma transform_rejects_wrong_length_witness :
  rejects_length accept_all
    (ST.st accept_all ramp_lib (ST_sample 8) (silence 7)) [] (silence 7) 8 /\
  rejects_length accept_all
    (FST.fst accept_all ramp_lib (FST_sample 8) (silence 9)) [] (silence 9) 8 /\
  rejects_length accept_all
    (PWT.pwt accept_all ramp_lib (PWT_sample 3) (silence 0)) [] (silence 0) 8.
Proof.
  split; [| split].
  - refine (proj1 (transform_rejects_wrong_length accept_all ramp_lib
                     (silence 7) []) _ [] _ (ST_sample 8) (ST_sample_built 8 []) _).
    cbn. lia.
  - refine (proj1 (proj2 (transform_rejects_wrong_length accept_all ramp_lib
                     (silence 9) [])) _ [] _ (FST_sample 8) (FST_sample_built 8 []) _).
    cbn. lia.
  - refine (proj2 (proj2 (transform_rejects_wrong_length accept_all ramp_lib
                     (silence 0) [])) _ [] _ (PWT_sample 3)
              (PWT_sample_built 3 []) _).
    cbn. lia.
Defined.

(** C2, as the code has it: on a constructed ST or FST instance whose
    [samplate] is positive and whose float32 products do not round
    ([samplate = s' * 2^t] with [max_index * s' < 2^24], [t <= 104],
    [radix2_exp <= 127]), [get_fre_band_arr()] holds
    [num = max_index - min_index + 1] values, the [i]-th being
    [(min_index + i) * samplate / fft_length]; they increase strictly and lie
    between [min_index * samplate / fft_length] and
    [max_index * samplate / fft_length]. *)
Theorem fre_band_arr_increasing :
  (forall a w0 w1 self,
      ST.__init__ a w0 = (Ok self, w1) ->
      products_exact (ST.max_index self) (ST.samplate self)
        (ST.radix2_exp self) ->
      band_contract (ST.get_fre_band_arr self) (ST.min_index self)
        (ST.max_index self) (ST.samplate self) (ST.fft_length self)
        (ST.num self)) /\
  (forall a w0 w1 self,
      FST.__init__ a w0 = (Ok self, w1) ->
      products_exact (FST.max_index self) (FST.samplate self)
        (FST.radix2_exp self) ->
      band_contract (FST.get_fre_band_arr self) (FST.min_index self)
        (FST.max_index self) (FST.samplate self) (FST.fft_length self)
        (FST.num self)).
Proof.
  assert (Hgen : forall lo hi s r,
             1 <= lo -> lo <= hi -> 0 <= r -> products_exact hi s r ->
             band_contract
               (np_div (np_mul (np_arange_f32 lo (hi + 1)) s) (2 ^ r))
               lo hi s (2 ^ r) (hi - lo + 1)).
  { intros lo hi s r Hlo Hle Hr Hex.
    pose proof (products_exact_pos _ _ _ Hex) as Hs.
    assert (HN : 0 < 2 ^ r) by now apply Z.pow_pos_nonneg.
    assert (Hentry : forall i x,
               nth_error (np_div (np_mul (np_arange_f32 lo (hi + 1)) s) (2 ^ r)) i
                 = Some x ->
               (i < Z.to_nat (hi - lo + 1))%nat /\
               (x == band_value lo s (2 ^ r) i)%Q).
    { intros i x Hx.
      assert (Hi : (i < Z.to_nat (hi - lo + 1))%nat).
      { rewrite <- (band_length lo hi s (2 ^ r)).
        apply nth_error_Some. congruence. }
      split; [exact Hi |].
      destruct (band_entry_exact lo hi s r i Hlo Hr Hex Hi) as [Hn He].
      rewrite Hn in Hx. injection Hx as <-. exact He. }
    split; [reflexivity |]. split; [apply band_length |].
    split.
    { intros i Hi.
      destruct (band_entry_exact lo hi s r i Hlo Hr Hex Hi) as [Hn He].
      eexists. split; [exact Hn | exact He]. }
    split.
    { rewrite band_closed_form. apply strictly_increasing_map_seq.
      intros i _ Hi. cbn [Nat.add] in Hi.
      destruct (band_entry_exact lo hi s r i Hlo Hr Hex ltac:(lia)) as [_ He].
      destruct (band_entry_exact lo hi s r (S i) Hlo Hr Hex Hi) as [_ He'].
      rewrite He, He'. apply band_value_lt; (assumption || lia). }
    split.
    { intros i j x y Hij Hx Hy.
      destruct (Hentry i x Hx) as [_ Ex]. destruct (Hentry j y Hy) as [_ Ey].
      rewrite Ex, Ey. apply band_value_lt; assumption. }
    intros v Hv. apply In_nth_error in Hv. destruct Hv as [i Hi].
    destruct (Hentry i v Hi) as [Hlt Ev]. rewrite Ev. split.
    - replace lo with (lo + Z.of_nat 0) at 1 by lia.
      apply (band_value_le lo s (2 ^ r) Hs HN 0 i). lia.
    - replace hi with (lo + Z.of_nat (Z.to_nat (hi - lo))) at 1 by lia.
      apply (band_value_le lo s (2 ^ r) Hs HN i (Z.to_nat (hi - lo))). lia. }
  split; intros a w0 w1 self Hinit Hex.
  - destruct (ST_init_inv _ _ _ _ Hinit)
      as (Hr & Hrx & Hfft & _ & _ & _ & Hnum & Hlo & Hhi & _).
    rewrite <- Hrx in Hr, Hfft.
    unfold ST.get_fre_band_arr. rewrite Hnum, Hfft.
    apply Hgen; (assumption || lia).
  - destruct (FST_init_inv _ _ _ _ Hinit)
      as (Hr & Hrx & Hfft & _ & _ & _ & Hnum & Hlo & Hhi & _).
    rewrite <- Hrx in Hr, Hfft.
    unfold FST.get_fre_band_arr. rewrite Hnum, Hfft.
    apply Hgen; (assumption || lia).
Qed.

Lemma fre_band_arr_increasing_witness :
  band_contract (ST.get_fre_band_arr (ST_sample 8)) 1 2 8 8 2 /\
  band_contract (FST.get_fre_band_arr (FST_sample 8)) 1 2 8 8 2.
Proof.
  split.
  - refine (proj1 fre_band_arr_increasing _ [] _ (ST_sample 8)
              (ST_sample_built 8 []) _).
    exists 1, 3. cbn. lia.
  - refine (proj2 fre_band_arr_increasing _ [] _ (FST_sample 8)
              (FST_sample_built 8 []) _).
    exists 1, 3. cbn. lia.
Defined.

(** The entries of the band array of [FST_wide]. *)
Lemma FST_wide_entry (k : Z) :
  0 <= k < 16777215 ->
  nth_error (FST.get_fre_band_arr FST_wide) (Z.to_nat k)
    = Some (band_f32 1 32000 33554432 k).
Proof.
  intros Hk. unfold FST.get_fre_band_arr, FST_wide.
  cbn [FST.min_index FST.max_index FST.samplate FST.fft_length].
  rewrite band_nth by (apply Z2Nat.inj_lt; lia).
  rewrite Z2Nat.id by lia. reflexivity.
Qed.

(** C2 fails as stated, twice over.  Nothing checks [samplate], so
    [samplate=0] is constructed and its band array is [0, 0].  And the array
    is float32: [FST(radix2_exp=25)] with its defaults, at 32000 Hz, has the
    same value at bins 8589973 and 8589974, both products rounding to
    274879152128. *)
Lemma fre_band_arr_not_increasing :
  (ST.__init__ (ST_args 3 1 (Some 2) 0) [] =
     (Ok (ST_sample 0), [stObj_new 3 1 2 1 1]) /\
   FST.__init__ (FST_args 3 1 (Some 2) 0) [] =
     (Ok (FST_sample 0), [fstObj_new 3]) /\
   strictly_increasing (ST.get_fre_band_arr (ST_sample 0)) = false /\
   strictly_increasing (FST.get_fre_band_arr (FST_sample 0)) = false /\
   ~ band_contract (ST.get_fre_band_arr (ST_sample 0)) 1 2 0 8 2 /\
   ~ band_contract (FST.get_fre_band_arr (FST_sample 0)) 1 2 0 8 2) /\
  (FST.__init__ (FST_defaults 25) [] = (Ok FST_wide, [fstObj_new 25]) /\
   0 < FST.samplate FST_wide /\
   (exists x y,
      nth_error (FST.get_fre_band_arr FST_wide) (Z.to_nat 8589972) = Some x /\
      nth_error (FST.get_fre_band_arr FST_wide) (Z.to_nat 8589973) = Some y /\
      (x == y)%Q) /\
   ~ band_contract (FST.get_fre_band_arr FST_wide) 1 16777215 32000 33554432
       16777215).
Proof.
  split.
  { repeat split; intros (_ & _ & _ & Hinc & _); discriminate Hinc. }
  assert (Hlt : (Z.to_nat 8589972 < Z.to_nat 8589973)%nat)
    by (apply Z2Nat.inj_lt; lia).
  assert (Hxy : (band_f32 1 32000 33554432 8589972
                 == band_f32 1 32000 33554432 8589973)%Q)
    by (vm_compute; reflexivity).
  pose proof (FST_wide_entry 8589972 ltac:(lia)) as Hx.
  pose proof (FST_wide_entry 8589973 ltac:(lia)) as Hy.
  split; [reflexivity |]. split; [reflexivity |]. split.
  - exists (band_f32 1 32000 33554432 8589972),
           (band_f32 1 32000 33554432 8589973).
    split; [exact Hx |]. split; [exact Hy | exact Hxy].
  - intros (_ & _ & _ & _ & Hpair & _).
    pose proof (Hpair _ _ _ _ Hlt Hx Hy) as Hc.
    apply (Qlt_irrefl (band_f32 1 32000 33554432 8589973)).
    eapply Qle_lt_trans; [| exact Hc].
    apply Qle_lteq. right. symmetry. exact Hxy.
Qed.









(** C8: for a PWT of scale Octave or Log, [low_fre] equal to 32.703 is
    accepted and the instance is constructed (given, for Octave, a positive
    [bin_per_octave], and a [radix2_exp] that is not negative); any
    [low_fre] below 32.703 raises [ValueError] before the native library is
    called. *)
Theorem low_fre_boundary (a : PWT.args) (w : world) (v : Q) :
  PWT.octave_or_log (kw OCTAVE (PWT.arg_scale_type a)) = true ->
  PWT.arg_low_fre a = Some (Some v) ->
  ((v == 32703 # 1000)%Q ->
   (kw OCTAVE (PWT.arg_scale_type a) = OCTAVE ->
    1 <= kw 12 (PWT.arg_bin_per_octave a)) ->
   0 <= kw 12 (PWT.arg_radix2_exp a) ->
   exists self c,
     PWT.__init__ a w = (Ok self, c :: w) /\ PWT.low_fre self = v) /\
  ((v < 32703 # 1000)%Q ->
   exists msg,
     PWT.__init__ a w = (Err (ValueError msg), w) /\
     ((kw OCTAVE (PWT.arg_scale_type a) = OCTAVE ->
       1 <= kw 12 (PWT.arg_bin_per_octave a)) ->
      msg = LowFreBelowC1 v)).
Proof.
  intros Hscale Hlow. split.
  - intros Hv Hbpo Hr.
    unfold PWT.__init__. py_unfold. rewrite Hlow, Hscale. cbn [kw andb].
    rewrite round3_C1.
    assert (E1 : scale_eqb (kw OCTAVE (PWT.arg_scale_type a)) OCTAVE
                 && (kw 12 (PWT.arg_bin_per_octave a) <? 1) = false).
    { destruct (kw OCTAVE (PWT.arg_scale_type a)); try reflexivity.
      cbn [scale_eqb andb]. specialize (Hbpo eq_refl).
      destruct (Z.ltb_spec (kw 12 (PWT.arg_bin_per_octave a)) 1);
        [lia | reflexivity]. }
    rewrite E1.
    assert (E2 : Qltb v (32703 # 1000) = false).
    { apply Qltb_false. rewrite Hv. apply Qle_refl. }
    rewrite E2.
    assert (E3 : Qltb v 0 = false).
    { apply Qltb_false. rewrite Hv. discriminate. }
    rewrite E3. rewrite (lshift1_ok _ Hr).
    eexists _, _. split; reflexivity.
  - intros Hv.
    assert (E2 : Qltb v (32703 # 1000) = true) by now apply Qltb_true.
    unfold PWT.__init__. py_unfold. rewrite Hlow, Hscale. cbn [kw andb].
    rewrite round3_C1, E2.
    destruct (scale_eqb (kw OCTAVE (PWT.arg_scale_type a)) OCTAVE
              && (kw 12 (PWT.arg_bin_per_octave a) <? 1)) eqn:E1.
    + eexists. split; [reflexivity |]. intros Hbpo. exfalso.
      apply andb_true_iff in E1. destruct E1 as [Eo Eb].
      assert (Ho : kw OCTAVE (PWT.arg_scale_type a) = OCTAVE)
        by (destruct (kw OCTAVE (PWT.arg_scale_type a)); (reflexivity || discriminate)).
      specialize (Hbpo Ho). apply Z.ltb_lt in Eb. lia.
    + eexists. split; reflexivity.
Qed.

Lemma low_fre_boundary_witness :
  (exists self c,
     PWT.__init__ (PWT_args 84 12 32000 (Some (Some (32703 # 1000))) OCTAVE) [] =
       (Ok self, [c]) /\ PWT.low_fre self = (32703 # 1000)%Q) /\
  (exists msg,
     PWT.__init__ (PWT_args 84 12 32000 (Some (Some (32702 # 1000))) LOG) [] =
       (Err (ValueError msg), []) /\
     msg = LowFreBelowC1 (32702 # 1000)).
Proof.
  split.
  - refine (proj1 (low_fre_boundary
                     (PWT_args 84 12 32000 (Some (Some (32703 # 1000))) OCTAVE)
                     [] (32703 # 1000) eq_refl eq_refl) _ _ _).
    + reflexivity.
    + intros _. cbn. lia.
    + cbn. lia.
  - destruct (proj2 (low_fre_boundary
                       (PWT_args 84 12 32000 (Some (Some (32702 # 1000))) LOG)
                       [] (32702 # 1000) eq_refl eq_refl)) as (msg & Hrun & Hmsg).
    + reflexivity.
    + exists msg. split; [exact Hrun |]. apply Hmsg. intros H. discriminate H.
Defined.

(** C10: when [max_index] is left out, ST and FST construct as if it were
    [fft_length // 2 - 1], which is then the instance's [max_index]; with
    [radix2_exp] 1 or 2 and [min_index] left at its default 1, construction
    raises [ValueError]: [min_index] is not below that [max_index]. *)
Theorem default_max_index (sa : ST.args) (fa : FST.args) (w : world) :
  ST.arg_max_index sa = None ->
  FST.arg_max_index fa = None ->
  let sr := kw 12 (ST.arg_radix2_exp sa) in
  let fr := kw 12 (FST.arg_radix2_exp fa) in
  ST.__init__ sa w = ST.__init__ (ST_with_max sa (Z.shiftl 1 sr / 2 - 1)) w /\
  FST.__init__ fa w = FST.__init__ (FST_with_max fa (Z.shiftl 1 fr / 2 - 1)) w /\
  (forall self w', ST.__init__ sa w = (Ok self, w') ->
                   ST.max_index self = ST.fft_length self / 2 - 1) /\
  (forall self w', FST.__init__ fa w = (Ok self, w') ->
                   FST.max_index self = FST.fft_length self / 2 - 1) /\
  (ST.arg_min_index sa = None -> sr = 1 \/ sr = 2 ->
   ST.__init__ sa w = (Err (ValueError (MinIndexNotBelowMax 1 (sr - 1))), w)) /\
  (FST.arg_min_index fa = None -> fr = 1 \/ fr = 2 ->
   FST.__init__ fa w = (Err (ValueError (MinIndexNotBelowMax 1 (fr - 1))), w)).
Proof.
  intros Hs Hf sr fr.
  split; [| split; [| split; [| split; [| split]]]].
  - unfold ST.__init__, ST_with_max, lshift1. py_unfold.
    cbn [ST.arg_radix2_exp ST.arg_min_index ST.arg_max_index ST.arg_samplate
           ST.arg_factor ST.arg_norm].
    rewrite Hs. fold sr. destruct (sr <? 0); reflexivity.
  - unfold FST.__init__, FST_with_max, lshift1. py_unfold.
    cbn [FST.arg_radix2_exp FST.arg_min_index FST.arg_max_index
           FST.arg_samplate].
    rewrite Hf. fold fr. destruct (fr <? 0); reflexivity.
  - intros self w' Hinit.
    destruct (ST_init_inv _ _ _ _ Hinit) as (_ & _ & Hfft & _ & Hmax & _).
    rewrite Hs in Hmax. cbn [kw] in Hmax. now rewrite Hmax, Hfft.
  - intros self w' Hinit.
    destruct (FST_init_inv _ _ _ _ Hinit) as (_ & _ & Hfft & _ & Hmax & _).
    rewrite Hf in Hmax. cbn [kw] in Hmax. now rewrite Hmax, Hfft.
  - intros Hmin Hr. unfold ST.__init__. py_unfold. fold sr.
    rewrite Hs, Hmin. destruct Hr as [-> | ->]; reflexivity.
  - intros Hmin Hr. unfold FST.__init__. py_unfold. fold fr.
    rewrite Hf, Hmin. destruct Hr as [-> | ->]; reflexivity.
Qed.

Lemma default_max_index_witness :
  ST.__init__ (ST_args 4 1 None 32000) [] =
    ST.__init__ (ST_args 4 1 (Some 7) 32000) [] /\
  FST.__init__ (FST_args 4 1 None 32000) [] =
    FST.__init__ (FST_args 4 1 (Some 7) 32000) [] /\
  ST.__init__ {| ST.arg_radix2_exp := Some 1; ST.arg_min_index := None;
                 ST.arg_max_index := None; ST.arg_samplate := None;
                 ST.arg_factor := None; ST.arg_norm := None |} [] =
    (Err (ValueError (MinIndexNotBelowMax 1 0)), []) /\
  FST.__init__ {| FST.arg_radix2_exp := Some 2; FST.arg_min_index := None;
                  FST.arg_max_index := None; FST.arg_samplate := None |} [] =
    (Err (ValueError (MinIndexNotBelowMax 1 1)), []).
Proof.
  split; [| split; [| split]].
  - exact (proj1 (default_max_index (ST_args 4 1 None 32000)
                    (FST_args 4 1 None 32000) [] eq_refl eq_refl)).
  - exact (proj1 (proj2 (default_max_index (ST_args 4 1 None 32000)
                    (FST_args 4 1 None 32000) [] eq_refl eq_refl))).
  - exact (proj1 (proj2 (proj2 (proj2 (proj2
             (default_max_index
                {| ST.arg_radix2_exp := Some 1; ST.arg_min_index := None;
                   ST.arg_max_index := None; ST.arg_samplate := None;
                   ST.arg_factor := None; ST.arg_norm := None |}
                {| FST.arg_radix2_exp := Some 2; FST.arg_min_index := None;
                   FST.arg_max_index := None; FST.arg_samplate := None |}
                [] eq_refl eq_refl))))) eq_refl (or_introl eq_refl)).
  - exact (proj2 (proj2 (proj2 (proj2 (proj2
             (default_max_index
                {| ST.arg_radix2_exp := Some 1; ST.arg_min_index := None;
                   ST.arg_max_index := None; ST.arg_samplate := None;
                   ST.arg_factor := None; ST.arg_norm := None |}
                {| FST.arg_radix2_exp := Some 2; FST.arg_min_index := None;
                   FST.arg_max_index := None; FST.arg_samplate := None |}
                [] eq_refl eq_refl))))) eq_refl (or_intror eq_refl)).
Defined.

Lemma half_pow2 (r : Z) : 1 <= r -> 2 * (2 ^ r / 2) = 2 ^ r.
Proof.
  intros Hr. replace r with (Z.succ (r - 1)) by lia.
  rewrite Z.pow_succ_r by lia.
  rewrite (Z.mul_comm 2 (2 ^ (r - 1))), Z.div_mul by lia. lia.
Qed.

(** C4 does not hold of the code: for every [radix2_exp >= 1] and every
    [min_index] with [1 <= min_index < fft_length/2], [FST(...)] with
    [max_index = fft_length/2] raises [ValueError]; the test is
    [max_index >= fft_length / 2], the one ST uses. *)
Theorem fst_half_refused (a : FST.args) (w : world) (r : Z) :
  kw 12 (FST.arg_radix2_exp a) = r ->
  1 <= r ->
  FST.arg_max_index a = Some (2 ^ r / 2) ->
  1 <= kw 1 (FST.arg_min_index a) < 2 ^ r / 2 ->
  FST.__init__ a w = (Err (ValueError (MaxIndexTooLarge (2 ^ r / 2))), w).
Proof.
  intros Hr Hr1 Hmax Hmin.
  unfold FST.__init__. py_unfold. rewrite Hr, Hmax.
  rewrite lshift1_ok by lia. rewrite Qgeb_half, half_pow2 by exact Hr1.
  destruct (Z.ltb_spec (kw 1 (FST.arg_min_index a)) 1); [lia |].
  now rewrite Z.leb_refl.
Qed.

Lemma fst_half_refused_witness :
  FST.__init__ (FST_args 3 1 (Some 4) 32000) [] =
    (Err (ValueError (MaxIndexTooLarge 4)), []).
Proof.
  refine (fst_half_refused (FST_args 3 1 (Some 4) 32000) [] 3
            eq_refl _ eq_refl _); cbn; lia.
Defined.

(** When [high_fre=None] is passed, the instance takes [samplate / 2]. *)
Lemma high_fre_none (a : PWT.args) (w w' : world) (self : PWT.t) :
  PWT.arg_high_fre a = Some None ->
  PWT.__init__ a w = (Ok self, w') ->
  PWT.high_fre self = (inject_Z (PWT.samplate self) / inject_Z 2)%Q.
Proof.
  intros Hhigh Hinit.
  destruct (PWT_init_inv _ _ _ _ Hinit) as (_ & _ & _ & _ & Hs & _ & Hh & _).
  rewrite Hh, Hs. unfold PWT_high_fre. now rewrite Hhigh.
Qed.

(** C6 does not hold of the code: a PWT constructed with [high_fre] left
    out has [high_fre = 16000], the constant of the signature, whatever
    [samplate] is; the branch that computes [samplate / 2] is reached only
    when [None] is passed. *)
Theorem high_fre_omitted (a : PWT.args) (w w' : world) (self : PWT.t) :
  PWT.arg_high_fre a = None ->
  PWT.__init__ a w = (Ok self, w') ->
  PWT.high_fre self = inject_Z 16000.
Proof.
  intros Hhigh Hinit.
  destruct (PWT_init_inv _ _ _ _ Hinit) as (_ & _ & _ & _ & _ & _ & Hh & _).
  rewrite Hh. unfold PWT_high_fre. now rewrite Hhigh.
Qed.

Lemma high_fre_omitted_witness :
  PWT.__init__ (PWT_args 84 12 44100 (Some (Some (32703 # 1000))) OCTAVE) [] =
    (Ok (PWT_octave_sample 44100),
     [pwtObj_new 84 12 44100 (32703 # 1000) (inject_Z 16000) 12 OCTAVE 0 0 1]) /\
  PWT.high_fre (PWT_octave_sample 44100) = inject_Z 16000 /\
  ~ (PWT.high_fre (PWT_octave_sample 44100) == inject_Z 44100 / inject_Z 2)%Q.
Proof.
  assert (Hinit :
    PWT.__init__ (PWT_args 84 12 44100 (Some (Some (32703 # 1000))) OCTAVE) [] =
      (Ok (PWT_octave_sample 44100),
       [pwtObj_new 84 12 44100 (32703 # 1000) (inject_Z 16000) 12 OCTAVE 0 0 1]))
    by reflexivity.
  split; [exact Hinit |]. split.
  - exact (high_fre_omitted
             (PWT_args 84 12 44100 (Some (Some (32703 # 1000))) OCTAVE)
             [] _ (PWT_octave_sample 44100) eq_refl Hinit).
  - intros E. discriminate E.
Defined.

(** * Further properties of the bindings *)

(** ** What the constructors accept *)



Lemma PWT_init_ok (a : PWT.args) (w : world) :
  PWT_accepts a ->
  exists self c,
    PWT.__init__ a w = (Ok self, c :: w) /\
    PWT.num self = PWT.arg_num a /\
    PWT.low_fre self = PWT_low_fre a /\
    PWT.high_fre self = PWT_high_fre a.
Proof.
  intros (Hbpo & Hc1 & Hlow & Hr).
  unfold PWT.__init__. py_unfold.
  fold (PWT_low_fre a). fold (PWT_high_fre a).
  assert (E1 : scale_eqb (kw OCTAVE (PWT.arg_scale_type a)) OCTAVE
               && (kw 12 (PWT.arg_bin_per_octave a) <? 1) = false).
  { destruct (kw OCTAVE (PWT.arg_scale_type a)); try reflexivity.
    cbn [scale_eqb andb]. specialize (Hbpo eq_refl).
    destruct (Z.ltb_spec (kw 12 (PWT.arg_bin_per_octave a)) 1);
      [lia | reflexivity]. }
  rewrite E1. rewrite round3_C1.
  assert (E2 : PWT.octave_or_log (kw OCTAVE (PWT.arg_scale_type a))
               && Qltb (PWT_low_fre a) (32703 # 1000) = false).
  { destruct (PWT.octave_or_log (kw OCTAVE (PWT.arg_scale_type a)));
      [| reflexivity].
    cbn [andb]. apply Qltb_false. now apply Hc1. }
  rewrite E2.
  assert (E3 : Qltb (PWT_low_fre a) 0 = false) by now apply Qltb_false.
  rewrite E3, (lshift1_ok _ Hr).
  eexists _, _. repeat split.
Qed.



(** ** What the errors tell *)

(** A [ValueError] of [ST.__init__] names the first test that failed, in the
    order negative [radix2_exp], [min_index < 1],
    [max_index >= fft_length / 2], [min_index >= max_index]; the earlier
    tests had passed. *)
Theorem ST_error_tells (a : ST.args) (w w' : world) (msg : message) :
  ST.__init__ a w = (Err (ValueError msg), w') ->
  index_error (ST_radix2_exp a) (ST_min_index a) (ST_max_index a) msg.
Proof.
  cbv [ST_radix2_exp ST_min_index ST_max_index].
  unfold ST.__init__, lshift1. py_unfold.
  destruct (Z.ltb_spec (kw 12 (ST.arg_radix2_exp a)) 0) as [Hr | Hr].
  - intros [= <- _]. exact Hr.
  - rewrite Z.shiftl_1_l, Qgeb_half, Z.geb_leb.
    replace (match ST.arg_max_index a with
             | Some m => m
             | None => 2 ^ kw 12 (ST.arg_radix2_exp a) / 2 - 1
             end)
      with (kw (2 ^ kw 12 (ST.arg_radix2_exp a) / 2 - 1) (ST.arg_max_index a))
      by (destruct (ST.arg_max_index a); reflexivity).
    destruct (Z.ltb_spec (kw 1 (ST.arg_min_index a)) 1).
    { intros [= <- _]. cbn [index_error]. lia. }
    destruct (Z.leb_spec (2 ^ kw 12 (ST.arg_radix2_exp a))
                (2 * kw (2 ^ kw 12 (ST.arg_radix2_exp a) / 2 - 1)
                       (ST.arg_max_index a))).
    { intros [= <- _]. cbn [index_error]. lia. }
    destruct (Z.leb_spec
                (kw (2 ^ kw 12 (ST.arg_radix2_exp a) / 2 - 1) (ST.arg_max_index a))
                (kw 1 (ST.arg_min_index a))).
    { intros [= <- _]. cbn [index_error]. lia. }
    discriminate.
Qed.

Lemma ST_error_tells_witness :
  ST.__init__ (ST_args 3 0 (Some 9) 32000) [] =
    (Err (ValueError (MinIndexNotPositive 0)), []) /\
  index_error 3 0 9 (MinIndexNotPositive 0).
Proof.
  assert (H : ST.__init__ (ST_args 3 0 (Some 9) 32000) [] =
              (Err (ValueError (MinIndexNotPositive 0)), [])) by reflexivity.
  split; [exact H |].
  exact (ST_error_tells (ST_args 3 0 (Some 9) 32000) [] [] _ H).
Defined.

(** The same for [FST.__init__]. *)
Theorem FST_error_tells (a : FST.args) (w w' : world) (msg : message) :
  FST.__init__ a w = (Err (ValueError msg), w') ->
  index_error (FST_radix2_exp a) (FST_min_index a) (FST_max_index a) msg.
Proof.
  cbv [FST_radix2_exp FST_min_index FST_max_index].
  unfold FST.__init__, lshift1. py_unfold.
  destruct (Z.ltb_spec (kw 12 (FST.arg_radix2_exp a)) 0) as [Hr | Hr].
  - intros [= <- _]. exact Hr.
  - rewrite Z.shiftl_1_l, Qgeb_half, Z.geb_leb.
    replace (match FST.arg_max_index a with
             | Some m => m
             | None => 2 ^ kw 12 (FST.arg_radix2_exp a) / 2 - 1
             end)
      with (kw (2 ^ kw 12 (FST.arg_radix2_exp a) / 2 - 1) (FST.arg_max_index a))
      by (destruct (FST.arg_max_index a); reflexivity).
    destruct (Z.ltb_spec (kw 1 (FST.arg_min_index a)) 1).
    { intros [= <- _]. cbn [index_error]. lia. }
    destruct (Z.leb_spec (2 ^ kw 12 (FST.arg_radix2_exp a))
                (2 * kw (2 ^ kw 12 (FST.arg_radix2_exp a) / 2 - 1)
                       (FST.arg_max_index a))).
    { intros [= <- _]. cbn [index_error]. lia. }
    destruct (Z.leb_spec
                (kw (2 ^ kw 12 (FST.arg_radix2_exp a) / 2 - 1)
                    (FST.arg_max_index a))
                (kw 1 (FST.arg_min_index a))).
    { intros [= <- _]. cbn [index_error]. lia. }
    discriminate.
Qed.

Lemma FST_error_tells_witness :
  FST.__init__ (FST_args 3 2 (Some 2) 32000) [] =
    (Err (ValueError (MinIndexNotBelowMax 2 2)), []) /\
  index_error 3 2 2 (MinIndexNotBelowMax 2 2).
Proof.
  assert (H : FST.__init__ (FST_args 3 2 (Some 2) 32000) [] =
              (Err (ValueError (MinIndexNotBelowMax 2 2)), [])) by reflexivity.
  split; [exact H |].
  exact (FST_error_tells (FST_args 3 2 (Some 2) 32000) [] [] _ H).
Defined.



(** ** Sizes of a constructed ST or FST *)

Lemma pow2_ge8 (r : Z) : 3 <= r -> 8 <= 2 ^ r.
Proof. intros Hr. change 8 with (2 ^ 3). apply Z.pow_le_mono_r; lia. Qed.

Lemma pow2_le4 (r : Z) : 0 <= r <= 2 -> 2 ^ r <= 4.
Proof. intros Hr. change 4 with (2 ^ 2). apply Z.pow_le_mono_r; lia. Qed.

Lemma index_range_sizes (r lo hi : Z) :
  index_range r lo hi ->
  3 <= r /\ 8 <= 2 ^ r /\ 2 <= hi - lo + 1 /\ 2 * (hi - lo + 1) < 2 ^ r.
Proof.
  intros (Hr & Hlo & Hlt & Hhi).
  assert (H3 : 3 <= r).
  { destruct (Z_lt_le_dec r 3) as [Hs | Hs]; [| exact Hs].
    pose proof (pow2_le4 r ltac:(lia)). lia. }
  pose proof (pow2_ge8 r H3). lia.
Qed.

(** The index tests leave no room below [radix2_exp = 3]: a constructed ST
    or FST has [radix2_exp >= 3], [fft_length >= 8], and between 2 and
    [fft_length / 2 - 1] rows. *)
Theorem constructed_sizes :
  (forall a w w' self,
      ST.__init__ a w = (Ok self, w') ->
      3 <= ST.radix2_exp self /\ 8 <= ST.fft_length self /\
      2 <= ST.num self /\ 2 * ST.num self < ST.fft_length self) /\
  (forall a w w' self,
      FST.__init__ a w = (Ok self, w') ->
      3 <= FST.radix2_exp self /\ 8 <= FST.fft_length self /\
      2 <= FST.num self /\ 2 * FST.num self < FST.fft_length self).
Proof.
  split; intros a w w' self Hinit.
  - destruct (ST_init_inv _ _ _ _ Hinit)
      as (Hr & Hrx & Hfft & _ & _ & _ & Hnum & Hlo & Hhi & _).
    rewrite Hrx, Hfft, Hnum. rewrite Hfft in Hhi.
    apply index_range_sizes. unfold index_range. lia.
  - destruct (FST_init_inv _ _ _ _ Hinit)
      as (Hr & Hrx & Hfft & _ & _ & _ & Hnum & Hlo & Hhi & _).
    rewrite Hrx, Hfft, Hnum. rewrite Hfft in Hhi.
    apply index_range_sizes. unfold index_range. lia.
Qed.

Lemma constructed_sizes_witness :
  (3 <= ST.radix2_exp (ST_sample 8) /\ 8 <= ST.fft_length (ST_sample 8) /\
   2 <= ST.num (ST_sample 8) /\
   2 * ST.num (ST_sample 8) < ST.fft_length (ST_sample 8)) /\
  (3 <= FST.radix2_exp (FST_sample 8) /\ 8 <= FST.fft_length (FST_sample 8) /\
   2 <= FST.num (FST_sample 8) /\
   2 * FST.num (FST_sample 8) < FST.fft_length (FST_sample 8)).
Proof.
  split.
  - exact (proj1 constructed_sizes _ [] _ _ (ST_sample_built 8 [])).
  - exact (proj2 constructed_sizes _ [] _ _ (FST_sample_built 8 [])).
Defined.



(** ** What reaches the native constructor *)

Lemma c_int_small (v : Z) : - 2 ^ 31 <= v < 2 ^ 31 -> c_int v = v.
Proof. intros Hv. unfold c_int. rewrite Z.mod_small; lia. Qed.

(** For [radix2_exp <= 31] the 32-bit integers handed to the native
    constructor are the arguments themselves: [stObj_new] gets
    [radix2_exp], [min_index] and [max_index], [fstObj_new] gets
    [radix2_exp]; nothing wraps around. *)
Theorem constructor_arguments_exact :
  (forall a w w' self,
      ST.__init__ a w = (Ok self, w') ->
      ST.radix2_exp self <= 31 ->
      w' = stObj_new (ST.radix2_exp self) (ST.min_index self)
             (ST.max_index self) (ST.factor self) (ST.norm self) :: w) /\
  (forall a w w' self,
      FST.__init__ a w = (Ok self, w') ->
      FST.radix2_exp self <= 31 ->
      w' = fstObj_new (FST.radix2_exp self) :: w).
Proof.
  split; intros a w w' self Hinit H31.
  - destruct (ST_init_inv _ _ _ _ Hinit)
      as (Hr & Hrx & Hfft & _ & _ & _ & _ & Hlo & Hhi & ->).
    rewrite <- Hrx in *.
    assert (Hp : 2 ^ ST.radix2_exp self <= 2 ^ 31)
      by (apply Z.pow_le_mono_r; lia).
    rewrite !c_int_small by lia. reflexivity.
  - destruct (FST_init_inv _ _ _ _ Hinit)
      as (Hr & Hrx & _ & _ & _ & _ & _ & _ & _ & ->).
    rewrite <- Hrx in *. rewrite c_int_small by lia. reflexivity.
Qed.

Lemma constructor_arguments_exact_witness :
  [stObj_new 3 1 2 1 1] =
    [stObj_new (ST.radix2_exp (ST_sample 8)) (ST.min_index (ST_sample 8))
       (ST.max_index (ST_sample 8)) (ST.factor (ST_sample 8))
       (ST.norm (ST_sample 8))] /\
  [fstObj_new 3] = [fstObj_new (FST.radix2_exp (FST_sample 8))].
Proof.
  split.
  - refine (proj1 constructor_arguments_exact _ [] _ _ (ST_sample_built 8 []) _).
    cbn. lia.
  - refine (proj2 constructor_arguments_exact _ [] _ _ (FST_sample_built 8 []) _).
    cbn. lia.
Defined.

(** ** The frequency axis of ST and FST *)

Lemma band_value_step (lo s N : Z) (i : nat) :
  (band_value lo s N (S i) - band_value lo s N i
   == inject_Z s / inject_Z N)%Q.
Proof.
  unfold band_value, Qdiv. rewrite Nat2Z.inj_succ.
  replace (lo + Z.succ (Z.of_nat i)) with (lo + Z.of_nat i + 1) by lia.
  rewrite inject_Z_plus. ring.
Qed.

Lemma band_value_nyquist (lo s N : Z) (i : nat) :
  0 < s -> 0 < N -> 1 <= lo -> 2 * (lo + Z.of_nat i) < N ->
  (0 < band_value lo s N i /\
   band_value lo s N i < inject_Z s / inject_Z 2)%Q.
Proof.
  intros Hs HN Hlo Hhi. unfold band_value.
  assert (HNq : (0 < inject_Z N)%Q)
    by (change 0%Q with (inject_Z 0); now rewrite <- Zlt_Qlt).
  split.
  - apply Qlt_shift_div_l; [exact HNq |].
    rewrite Qmult_0_l, <- inject_Z_mult.
    change 0%Q with (inject_Z 0). rewrite <- Zlt_Qlt. nia.
  - apply Qlt_shift_div_r; [exact HNq |].
    setoid_replace (inject_Z s / inject_Z 2 * inject_Z N)%Q
      with (inject_Z (s * N) / inject_Z 2)%Q
      by (rewrite inject_Z_mult; unfold Qdiv; ring).
    apply Qlt_shift_div_l; [reflexivity |].
    rewrite <- !inject_Z_mult, <- Zlt_Qlt. nia.
Qed.

(** When no float32 product rounds, consecutive entries of
    [get_fre_band_arr()] are exactly [samplate / fft_length] apart: the rows
    are the FFT bins [min_index] to [max_index], one bin apart. *)
Theorem fre_band_arr_spacing :
  (forall a w w' self i,
      ST.__init__ a w = (Ok self, w') ->
      products_exact (ST.max_index self) (ST.samplate self)
        (ST.radix2_exp self) ->
      (S i < Z.to_nat (ST.num self))%nat ->
      exists x y,
        nth_error (ST.get_fre_band_arr self) i = Some x /\
        nth_error (ST.get_fre_band_arr self) (S i) = Some y /\
        (y - x == inject_Z (ST.samplate self) / inject_Z (ST.fft_length self))%Q) /\
  (forall a w w' self i,
      FST.__init__ a w = (Ok self, w') ->
      products_exact (FST.max_index self) (FST.samplate self)
        (FST.radix2_exp self) ->
      (S i < Z.to_nat (FST.num self))%nat ->
      exists x y,
        nth_error (FST.get_fre_band_arr self) i = Some x /\
        nth_error (FST.get_fre_band_arr self) (S i) = Some y /\
        (y - x ==
           inject_Z (FST.samplate self) / inject_Z (FST.fft_length self))%Q).
Proof.
  split; intros a w w' self i Hinit Hex Hi.
  - destruct (ST_init_inv _ _ _ _ Hinit)
      as (Hr & Hrx & Hfft & _ & _ & _ & Hnum & Hlo & _).
    rewrite <- Hrx in Hr, Hfft.
    rewrite Hnum in Hi. unfold ST.get_fre_band_arr. rewrite Hfft.
    destruct (band_entry_exact _ _ _ _ i (proj1 Hlo) Hr Hex ltac:(lia))
      as [Hx Ex].
    destruct (band_entry_exact _ _ _ _ (S i) (proj1 Hlo) Hr Hex Hi)
      as [Hy Ey].
    eexists _, _. split; [exact Hx |]. split; [exact Hy |].
    rewrite Ex, Ey. apply band_value_step.
  - destruct (FST_init_inv _ _ _ _ Hinit)
      as (Hr & Hrx & Hfft & _ & _ & _ & Hnum & Hlo & _).
    rewrite <- Hrx in Hr, Hfft.
    rewrite Hnum in Hi. unfold FST.get_fre_band_arr. rewrite Hfft.
    destruct (band_entry_exact _ _ _ _ i (proj1 Hlo) Hr Hex ltac:(lia))
      as [Hx Ex].
    destruct (band_entry_exact _ _ _ _ (S i) (proj1 Hlo) Hr Hex Hi)
      as [Hy Ey].
    eexists _, _. split; [exact Hx |]. split; [exact Hy |].
    rewrite Ex, Ey. apply band_value_step.
Qed.

Lemma fre_band_arr_spacing_witness :
  (exists x y,
     nth_error (ST.get_fre_band_arr (ST_sample 8)) 0 = Some x /\
     nth_error (ST.get_fre_band_arr (ST_sample 8)) 1 = Some y /\
     (y - x == inject_Z 8 / inject_Z 8)%Q) /\
  (exists x y,
     nth_error (FST.get_fre_band_arr (FST_sample 8)) 0 = Some x /\
     nth_error (FST.get_fre_band_arr (FST_sample 8)) 1 = Some y /\
     (y - x == inject_Z 8 / inject_Z 8)%Q).
Proof.
  split.
  - refine (proj1 fre_band_arr_spacing _ [] _ (ST_sample 8) 0%nat
              (ST_sample_built 8 []) _ _).
    + exists 1, 3. cbn. lia.
    + cbn. lia.
  - refine (proj2 fre_band_arr_spacing _ [] _ (FST_sample 8) 0%nat
              (FST_sample_built 8 []) _ _).
    + exists 1, 3. cbn. lia.
    + cbn. lia.
Defined.

(** When no float32 product rounds, every frequency of
    [get_fre_band_arr()] lies strictly between 0 and the Nyquist frequency
    [samplate / 2]: the index tests keep the DC bin and the Nyquist bin
    out. *)
Theorem fre_band_arr_below_nyquist :
  (forall a w w' self v,
      ST.__init__ a w = (Ok self, w') ->
      products_exact (ST.max_index self) (ST.samplate self)
        (ST.radix2_exp self) ->
      In v (ST.get_fre_band_arr self) ->
      (0 < v /\ v < inject_Z (ST.samplate self) / inject_Z 2)%Q) /\
  (forall a w w' self v,
      FST.__init__ a w = (Ok self, w') ->
      products_exact (FST.max_index self) (FST.samplate self)
        (FST.radix2_exp self) ->
      In v (FST.get_fre_band_arr self) ->
      (0 < v /\ v < inject_Z (FST.samplate self) / inject_Z 2)%Q).
Proof.
  split; intros a w w' self v Hinit Hex Hin.
  - destruct (ST_init_inv _ _ _ _ Hinit)
      as (Hr & Hrx & Hfft & _ & _ & _ & _ & Hlo & Hhi & _).
    rewrite <- Hrx in Hr, Hfft.
    pose proof (products_exact_pos _ _ _ Hex) as Hs.
    assert (HN : 0 < ST.fft_length self)
      by (rewrite Hfft; now apply Z.pow_pos_nonneg).
    apply In_nth_error in Hin. destruct Hin as [i Hi].
    assert (Hlt : (i < Z.to_nat (ST.max_index self - ST.min_index self + 1))%nat).
    { rewrite <- (band_length _ _ (ST.samplate self) (ST.fft_length self)).
      apply nth_error_Some. unfold ST.get_fre_band_arr in Hi. congruence. }
    unfold ST.get_fre_band_arr in Hi. rewrite Hfft in Hi, HN, Hhi.
    destruct (band_entry_exact _ _ _ _ i (proj1 Hlo) Hr Hex Hlt) as [Hn Ev].
    rewrite Hn in Hi. injection Hi as <-. rewrite Ev.
    apply band_value_nyquist; lia.
  - destruct (FST_init_inv _ _ _ _ Hinit)
      as (Hr & Hrx & Hfft & _ & _ & _ & _ & Hlo & Hhi & _).
    rewrite <- Hrx in Hr, Hfft.
    pose proof (products_exact_pos _ _ _ Hex) as Hs.
    assert (HN : 0 < FST.fft_length self)
      by (rewrite Hfft; now apply Z.pow_pos_nonneg).
    apply In_nth_error in Hin. destruct Hin as [i Hi].
    assert (Hlt : (i < Z.to_nat (FST.max_index self - FST.min_index self + 1))%nat).
    { rewrite <- (band_length _ _ (FST.samplate self) (FST.fft_length self)).
      apply nth_error_Some. unfold FST.get_fre_band_arr in Hi. congruence. }
    unfold FST.get_fre_band_arr in Hi. rewrite Hfft in Hi, HN, Hhi.
    destruct (band_entry_exact _ _ _ _ i (proj1 Hlo) Hr Hex Hlt) as [Hn Ev].
    rewrite Hn in Hi. injection Hi as <-. rewrite Ev.
    apply band_value_nyquist; lia.
Qed.

Lemma fre_band_arr_below_nyquist_witness :
  (0 < band_f32 1 8 8 0 /\ band_f32 1 8 8 0 < inject_Z 8 / inject_Z 2)%Q /\
  (0 < band_f32 1 8 8 1 /\ band_f32 1 8 8 1 < inject_Z 8 / inject_Z 2)%Q.
Proof.
  split.
  - refine (proj1 fre_band_arr_below_nyquist _ [] _ (ST_sample 8)
              (band_f32 1 8 8 0) (ST_sample_built 8 []) _ _).
    + exists 1, 3. cbn. lia.
    + left. reflexivity.
  - refine (proj2 fre_band_arr_below_nyquist _ [] _ (FST_sample 8)
              (band_f32 1 8 8 1) (FST_sample_built 8 []) _ _).
    + exists 1, 3. cbn. lia.
    + right. left. reflexivity.
Defined.

(** ST and FST given the same [radix2_exp], [min_index], [max_index] and
    [samplate] have the same rows and the same axes: equal [num],
    [get_fre_band_arr()], [y_coords()] and [x_coords()]. *)
Theorem st_fst_same_axes (sa : ST.args) (fa : FST.args)
    (w1 w1' w2 w2' : world) (s : ST.t) (f : FST.t) :
  ST.arg_radix2_exp sa = FST.arg_radix2_exp fa ->
  ST.arg_min_index sa = FST.arg_min_index fa ->
  ST.arg_max_index sa = FST.arg_max_index fa ->
  ST.arg_samplate sa = FST.arg_samplate fa ->
  ST.__init__ sa w1 = (Ok s, w1') ->
  FST.__init__ fa w2 = (Ok f, w2') ->
  ST.num s = FST.num f /\
  ST.get_fre_band_arr s = FST.get_fre_band_arr f /\
  ST.y_coords s = FST.y_coords f /\
  ST.x_coords s = FST.x_coords f.
Proof.
  intros Er Emin Emax Es Hs Hf.
  destruct (ST_init_inv _ _ _ _ Hs)
    as (_ & _ & Hfft & Hmin & Hmax & Hsam & Hnum & _).
  destruct (FST_init_inv _ _ _ _ Hf)
    as (_ & _ & Hfft' & Hmin' & Hmax' & Hsam' & Hnum' & _).
  rewrite Er in Hfft, Hmax. rewrite Emin in Hmin. rewrite Emax in Hmax.
  rewrite Es in Hsam.
  assert (Eband : ST.get_fre_band_arr s = FST.get_fre_band_arr f).
  { unfold ST.get_fre_band_arr, FST.get_fre_band_arr.
    replace (ST.min_index s) with (FST.min_index f) by congruence.
    replace (ST.max_index s) with (FST.max_index f) by congruence.
    replace (ST.samplate s) with (FST.samplate f) by congruence.
    replace (ST.fft_length s) with (FST.fft_length f) by congruence.
    reflexivity. }
  split; [congruence |]. split; [exact Eband |]. split.
  - unfold ST.y_coords, FST.y_coords. now rewrite Eband.
  - assert (Efft : ST.fft_length s = FST.fft_length f) by congruence.
    assert (Esam : ST.samplate s = FST.samplate f) by congruence.
    unfold ST.x_coords, FST.x_coords. now rewrite Efft, Esam.
Qed.

Lemma st_fst_same_axes_witness :
  ST.num (ST_sample 8) = FST.num (FST_sample 8) /\
  ST.get_fre_band_arr (ST_sample 8) = FST.get_fre_band_arr (FST_sample 8) /\
  ST.y_coords (ST_sample 8) = FST.y_coords (FST_sample 8) /\
  ST.x_coords (ST_sample 8) = FST.x_coords (FST_sample 8).
Proof.
  exact (st_fst_same_axes (ST_args 3 1 (Some 2) 8) (FST_args 3 1 (Some 2) 8)
           [] _ [] _ _ _ eq_refl eq_refl eq_refl eq_refl
           (ST_sample_built 8 []) (FST_sample_built 8 [])).
Defined.

(** ** The time axis *)




(** ** PWT: frequencies left out or passed as [None] *)

(** With [low_fre] left out, a PWT of scale Octave or Log is never
    constructed: the default [0.] of the signature fails the 32.703 test of
    the same constructor.  As Octave is the default scale, [PWT(num)] alone
    raises. *)
Theorem low_fre_omitted_refused (a : PWT.args) (w : world) :
  PWT.arg_low_fre a = None ->
  PWT.octave_or_log (kw OCTAVE (PWT.arg_scale_type a)) = true ->
  exists msg,
    PWT.__init__ a w = (Err (ValueError msg), w) /\
    ((kw OCTAVE (PWT.arg_scale_type a) = OCTAVE ->
      1 <= kw 12 (PWT.arg_bin_per_octave a)) ->
     msg = LowFreBelowC1 0).
Proof.
  intros Hlow Hscale.
  unfold PWT.__init__. py_unfold. rewrite Hlow, Hscale. cbn [kw andb].
  rewrite round3_C1.
  change (Qltb 0 (32703 # 1000)) with true. cbv iota.
  destruct (scale_eqb (kw OCTAVE (PWT.arg_scale_type a)) OCTAVE
            && (kw 12 (PWT.arg_bin_per_octave a) <? 1)) eqn:E1.
  - eexists. split; [reflexivity |]. intros Hbpo. exfalso.
    apply andb_true_iff in E1. destruct E1 as [Eo Eb].
    assert (Ho : kw OCTAVE (PWT.arg_scale_type a) = OCTAVE)
      by (destruct (kw OCTAVE (PWT.arg_scale_type a));
          (reflexivity || discriminate)).
    specialize (Hbpo Ho). apply Z.ltb_lt in Eb. lia.
  - eexists. split; reflexivity.
Qed.

Lemma low_fre_omitted_refused_witness :
  exists msg,
    PWT.__init__ (PWT_defaults 84) [] = (Err (ValueError msg), []) /\
    msg = LowFreBelowC1 0.
Proof.
  destruct (low_fre_omitted_refused (PWT_defaults 84) [] eq_refl eq_refl)
    as (msg & Hrun & Hmsg).
  exists msg. split; [exact Hrun |]. apply Hmsg. intros _. cbn. lia.
Defined.

(** With [low_fre=None], the constructor takes the pitch C1 for the scales
    Octave and Log and 0 for the others, and that value passes both
    [low_fre] tests: the instance is constructed (given a positive
    [bin_per_octave] for Octave and a [radix2_exp] that is not negative). *)
Theorem low_fre_none_constructs (a : PWT.args) (w : world) :
  PWT.arg_low_fre a = Some None ->
  (kw OCTAVE (PWT.arg_scale_type a) = OCTAVE ->
   1 <= kw 12 (PWT.arg_bin_per_octave a)) ->
  0 <= kw 12 (PWT.arg_radix2_exp a) ->
  exists self c,
    PWT.__init__ a w = (Ok self, c :: w) /\
    PWT.low_fre self =
      if PWT.octave_or_log (kw OCTAVE (PWT.arg_scale_type a))
      then note_to_hz_C1 else 0%Q.
Proof.
  intros Hlow Hbpo Hr.
  assert (Elow : PWT_low_fre a =
                 if PWT.octave_or_log (kw OCTAVE (PWT.arg_scale_type a))
                 then note_to_hz_C1 else 0%Q)
    by (unfold PWT_low_fre; now rewrite Hlow).
  destruct (PWT_init_ok a w) as (self & c & Hinit & _ & Hl & _).
  - unfold PWT_accepts. cbv zeta. rewrite Elow.
    destruct (PWT.octave_or_log (kw OCTAVE (PWT.arg_scale_type a)));
      repeat split; try assumption; try discriminate.
  - exists self, c. split; [exact Hinit |]. now rewrite Hl.
Qed.

Lemma low_fre_none_constructs_witness :
  (exists self c,
     PWT.__init__ (PWT_args 84 12 32000 (Some None) OCTAVE) [] =
       (Ok self, [c]) /\
     PWT.low_fre self = note_to_hz_C1) /\
  (exists self c,
     PWT.__init__ (PWT_args 84 12 32000 (Some None) MEL) [] = (Ok self, [c]) /\
     PWT.low_fre self = 0%Q).
Proof.
  split.
  - refine (low_fre_none_constructs (PWT_args 84 12 32000 (Some None) OCTAVE)
              [] eq_refl _ _).
    + intros _. cbn. lia.
    + cbn. lia.
  - refine (low_fre_none_constructs (PWT_args 84 12 32000 (Some None) MEL)
              [] eq_refl _ _).
    + intros H. discriminate H.
    + cbn. lia.
Defined.

(** ** PWT: a negative [num] *)

(** [num] is never checked, and a PWT constructed with a negative [num] is
    unusable: [get_fre_band_arr()] and [y_coords()] raise [ValueError] after
    their call into the library has been made, and [pwt()] raises on an
    accepted signal before any call. *)
Theorem negative_num_unusable
    (check_audio : list Q -> result unit) (lib : native_lib)
    (a : PWT.args) (w0 w1 w : world) (self : PWT.t) (data_arr : list Q) :
  PWT.__init__ a w0 = (Ok self, w1) ->
  PWT.num self < 0 ->
  PWT.get_fre_band_arr lib self w =
    (Err (ValueError NegativeArrayLength), pwtObj_getFreBandArr :: w) /\
  PWT.y_coords lib self w =
    (Err (ValueError NegativeArrayLength), pwtObj_getFreBandArr :: w) /\
  (check_audio data_arr = Ok tt ->
   Z.of_nat (length data_arr) = PWT.fft_length self ->
   PWT.pwt check_audio lib self data_arr w =
     (Err (ValueError NegativeDimensions), w)).
Proof.
  intros Hinit Hnum.
  destruct (PWT_init_inv _ _ _ _ Hinit) as (Hr & Hrx & Hfft & _).
  rewrite <- Hrx in Hr, Hfft.
  unfold PWT.y_coords, PWT.get_fre_band_arr, PWT.pwt. py_unfold.
  destruct (Z.ltb_spec (PWT.num self) 0); [| lia].
  split; [reflexivity |]. split; [reflexivity |].
  intros Hchk Hlen. rewrite Hchk.
  rewrite check_audio_length_ok by (assumption || (rewrite <- Hfft; exact Hlen)).
  unfold np_zeros. destruct (Z.ltb_spec (PWT.num self) 0); [| lia].
  reflexivity.
Qed.

Lemma negative_num_unusable_witness :
  PWT.get_fre_band_arr ramp_lib (PWT_sample (-1)) [] =
    (Err (ValueError NegativeArrayLength), [pwtObj_getFreBandArr]) /\
  PWT.y_coords ramp_lib (PWT_sample (-1)) [] =
    (Err (ValueError NegativeArrayLength), [pwtObj_getFreBandArr]) /\
  (accept_all (silence 8) = Ok tt ->
   Z.of_nat (length (silence 8)) = PWT.fft_length (PWT_sample (-1)) ->
   PWT.pwt accept_all ramp_lib (PWT_sample (-1)) (silence 8) [] =
     (Err (ValueError NegativeDimensions), [])).
Proof.
  refine (negative_num_unusable accept_all ramp_lib _ [] _ []
            (PWT_sample (-1)) (silence 8) (PWT_sample_built (-1) []) _).
  cbn. lia.
Defined.

(** ** PWT: [pwt_det] and [get_bin_band_arr] *)

(** [pwt_det] validates before it allocates or calls: when [check_audio] or
    [check_audio_length] raises, [pwt_det] raises the same error and the log
    of native calls is unchanged. *)
Theorem pwt_det_validates_first
    (check_audio : list Q -> result unit) (lib : det_lib)
    (self : PWT.t) (data_arr : list Q) (w : det_world) (e : exn) :
  check_audio data_arr = Err e \/
  (check_audio data_arr = Ok tt /\
   check_audio_length data_arr (PWT.radix2_exp self) = Err e) ->
  PWT_det.pwt_det check_audio lib self data_arr w = (Err e, w).
Proof.
  unfold PWT_det.pwt_det, det_bind, det_lift.
  intros [-> | [-> ->]]; reflexivity.
Qed.

Lemma pwt_det_validates_first_witness :
  PWT_det.pwt_det accept_all ramp_det_lib (PWT_sample 3) (silence 7) [] =
    (Err (ValueError (AudioLength 7 8)), []).
Proof.
  refine (pwt_det_validates_first accept_all ramp_det_lib (PWT_sample 3)
            (silence 7) [] _ (or_intror (conj eq_refl _))).
  reflexivity.
Defined.

(** Once both validators accept the signal, [pwt_det] on a PWT with [num]
    not negative makes one call, [pwtObj_pwtDet] with the validated signal,
    and returns a complex matrix of [num] rows and [fft_length] columns, the
    shape [pwt] returns; it does so in any state of the log, whether or not
    [enable_det] was called before. *)
Theorem pwt_det_shape
    (check_audio : list Q -> result unit) (lib : det_lib)
    (a : PWT.args) (w0 w1 : world) (self : PWT.t)
    (data_arr checked : list Q) (w : det_world) :
  PWT.__init__ a w0 = (Ok self, w1) ->
  0 <= PWT.num self ->
  check_audio data_arr = Ok tt ->
  check_audio_length data_arr (PWT.radix2_exp self) = Ok checked ->
  exists m,
    PWT_det.pwt_det check_audio lib self data_arr w =
      (Ok m, inr (pwtObj_pwtDet checked) :: w) /\
    has_shape m (PWT.num self) (PWT.fft_length self) /\
    has_shape (real_plane m) (PWT.num self) (PWT.fft_length self) /\
    has_shape (imag_plane m) (PWT.num self) (PWT.fft_length self).
Proof.
  intros Hinit Hnum Hchk Hlen.
  destruct (PWT_init_inv _ _ _ _ Hinit) as (Hr & _ & Hfft & _).
  assert (HN : 0 <= PWT.fft_length self)
    by (rewrite Hfft; apply Z.pow_nonneg; lia).
  unfold PWT_det.pwt_det, det_bind, det_lift, det_call_native, det_ret.
  rewrite Hchk, Hlen, np_zeros_ok by assumption.
  eexists. split; [reflexivity |].
  apply spectrum_shape; now apply np_zeros_ok.
Qed.

Lemma pwt_det_shape_witness :
  exists m,
    PWT_det.pwt_det accept_all ramp_det_lib (PWT_sample 3) (silence 8)
      [inr (pwtObj_enableDet 1)] =
      (Ok m, [inr (pwtObj_pwtDet (silence 8)); inr (pwtObj_enableDet 1)]) /\
    has_shape m 3 8 /\
    has_shape (real_plane m) 3 8 /\
    has_shape (imag_plane m) 3 8.
Proof.
  refine (pwt_det_shape accept_all ramp_det_lib _ [] _ (PWT_sample 3)
            (silence 8) (silence 8) [inr (pwtObj_enableDet 1)]
            (PWT_sample_built 3 []) _ eq_refl eq_refl).
  cbn. lia.
Defined.

(** [get_bin_band_arr()] and [get_fre_band_arr()] pair up: for [num] not
    negative each makes one call and returns exactly [num] entries. *)
Theorem band_arrays_pair_up
    (lib : native_lib) (dlib : det_lib) (self : PWT.t)
    (w : world) (dw : det_world) :
  0 <= PWT.num self ->
  exists fres bins,
    PWT.get_fre_band_arr lib self w = (Ok fres, pwtObj_getFreBandArr :: w) /\
    PWT_det.get_bin_band_arr dlib self dw =
      (Ok bins, inr pwtObj_getBinBandArr :: dw) /\
    length fres = Z.to_nat (PWT.num self) /\
    length bins = length fres.
Proof.
  intros Hnum.
  unfold PWT.get_fre_band_arr, PWT_det.get_bin_band_arr.
  unfold det_bind, det_call_native, det_ret. py_unfold.
  destruct (Z.ltb_spec (PWT.num self) 0); [lia |].
  eexists _, _. split; [reflexivity |]. split; [reflexivity |].
  now rewrite !length_map, !length_seq.
Qed.

Lemma band_arrays_pair_up_witness :
  exists fres bins,
    PWT.get_fre_band_arr ramp_lib (PWT_sample 3) [] =
      (Ok fres, [pwtObj_getFreBandArr]) /\
    PWT_det.get_bin_band_arr ramp_det_lib (PWT_sample 3) [] =
      (Ok bins, [inr pwtObj_getBinBandArr]) /\
    length fres = 3%nat /\
    length bins = length fres.
Proof.
  refine (band_arrays_pair_up ramp_lib ramp_det_lib (PWT_sample 3) [] [] _).
  cbn. lia.
Defined.
